(** * falcon-idempotency: the idempotency middleware, embedded and verified

    A shallow embedding of [falcon_idempotency/middlewares.py] and
    [falcon_idempotency/mixins.py].  Python objects whose attributes are
    read and written by name ([dir], [getattr], [setattr]) are finite maps
    from attribute names to values; the Redis connection is a store with
    expiry times and a log of the commands it received; every method of the
    middleware is an action of a small state-and-exception monad. *)

From Stdlib Require Import ZArith Ascii String.
From stdpp Require Import gmap strings pretty list fin_maps.

Open Scope string_scope.
Open Scope Z_scope.

(** ** Python values and objects *)

(** The values an attribute of a response or of a resource can hold.
    [VStream] stands for an open stream or file object (what
    [response.stream] is set to when a body is streamed). *)
Inductive PyVal : Type :=
  | VNone
  | VBool (b : bool)
  | VInt (z : Z)
  | VStr (s : string)
  | VDict (d : list (string * string))
  | VStream (fd : nat).

#[global] Instance PyVal_eq_dec : EqDecision PyVal.
Proof. solve_decision. Defined.

(** An object is its attribute table. *)
Abbreviation PyObj := (gmap string PyVal).
Abbreviation Response := (gmap string PyVal).
Abbreviation Resource := (gmap string PyVal).

(** Exceptions raised on the paths the middleware takes. *)
Inductive exn : Type :=
  | ValueError
  | KeyError
  | AttributeError
  | PicklingError
  | UnpicklingError
  | SentinelException.

#[global] Instance exn_eq_dec : EqDecision exn.
Proof. solve_decision. Defined.

Inductive result (A : Type) : Type :=
  | Ok (a : A)
  | Raise (e : exn).
Arguments Ok {A} a.
Arguments Raise {A} e.

(** Truthiness of [request.get_header(...)]: [None] and the empty string
    are falsy, every other string is truthy. *)
Definition truthy (o : option string) : bool :=
  match o with
  | None => false
  | Some "" => false
  | Some _ => true
  end.

(** [str(x)] for a value that is [None] or a string, as [str.format]
    renders it. *)
Definition py_str (o : option string) : string :=
  match o with
  | None => "None"
  | Some s => s
  end.

(** ** Requests *)

(** [request.context] is keyed by whatever [get_header] returned, a string
    or [None]. *)
Abbreviation Context := (gmap (option string) Response).

Record Request : Type := mkRequest {
  method : string;
  headers : gmap string string;
  req_context : Context
}.

(** [request.get_header(name)]: the framework looks header names up
    case-insensitively; [headers] holds them under their lower-case name. *)
Definition get_header (request : Request) (name : string) : option string :=
  headers request !! name.

(** ** The Redis connection *)

Section Redis.
Context {bytes : Type}.

Inductive RedisCall : Type :=
  | GET (key : string)
  | SETEX (key : string) (value : bytes) (ttl : Z).

(** Every key holds its value and the time at which it expires; [calls]
    logs the commands received, oldest first. *)
Record Redis : Type := mkRedis {
  data : gmap string (bytes * Z);
  calls : list RedisCall
}.

(** An entry is dropped once its expiry lies behind; at the very time of
    its expiry it is still held. *)
Definition live (now : Z) (entry : bytes * Z) : bool := (now <=? entry.2)%Z.

(** Drops the keys whose time has passed ([MyMockRedis.get] calls
    [do_expire] before every read). *)
Definition do_expire (now : Z) (d : gmap string (bytes * Z)) : gmap string (bytes * Z) :=
  filter (λ kv, live now kv.2 = true) d.

Definition redis_get (now : Z) (key : string) (r : Redis) : option bytes * Redis :=
  let d := do_expire now (data r) in
  (fst <$> d !! key, {| data := d; calls := calls r ++ [GET key] |}).

(** [setex(key, value, ttl)] with a positive TTL, as the default of the
    middleware and the one of the test suite are; a TTL that is not
    positive is outside this definition. *)
Definition redis_setex (now : Z) (key : string) (value : bytes) (ttl : Z) (r : Redis) : Redis :=
  {| data := <[key := (value, now + ttl)]> (data r);
     calls := calls r ++ [SETEX key value ttl] |}.
End Redis.
Arguments RedisCall : clear implicits.
Arguments Redis : clear implicits.

(** ** The middleware object *)

Inductive Conn : Type :=
  | Supplied (name : string)
  | FromUrl (url : string).

Record Middleware : Type := mkMiddleware {
  _redis_url : option string;
  _redis_connection : option Conn;
  _ttl : Z
}.

(** ** Key derivation *)

Fixpoint has_char (c : ascii) (s : string) : bool :=
  match s with
  | EmptyString => false
  | String a s' => if Ascii.eqb a c then true else has_char c s'
  end.

Definition underscore : ascii := "_"%char.

(** ** The pickle codec *)

(** [pickle.dumps] and [pickle.loads] belong to Python's standard library;
    the middleware is verified against their contract.  [dumps] returns
    [None] where [pickle.dumps] raises (an object holding an open stream,
    say), [loads] returns [None] where [pickle.loads] raises, and loading
    what was dumped gives the object back. *)
Class Pickle (bytes : Type) : Type := {
  dumps : PyObj → option bytes;
  loads : bytes → option PyObj;
  loads_dumps : ∀ o b, dumps o = Some b → loads b = Some o
}.

(** ** The state a request is handled in, and the monad of the methods *)

(** What the methods of the middleware read and mutate while one request
    is handled: the Redis connection, [request.context] and the response
    object. *)
Record Env (bytes : Type) : Type := mkEnv {
  redis : Redis bytes;
  context : Context;
  response : Response
}.
Arguments mkEnv {bytes} redis context response.
Arguments redis {bytes} e.
Arguments context {bytes} e.
Arguments response {bytes} e.

(** An action returns normally or raises; what it mutated before raising
    stays mutated. *)
Definition M (bytes A : Type) : Type := Env bytes → result A * Env bytes.

Section Monad.
Context {bytes : Type}.

Definition ret {A} (a : A) : M bytes A := λ e, (Ok a, e).

Definition raise {A} (ex : exn) : M bytes A := λ e, (Raise ex, e).

Definition bind {A B} (m : M bytes A) (k : A → M bytes B) : M bytes B :=
  λ e, match m e with
       | (Ok a, e') => k a e'
       | (Raise ex, e') => (Raise ex, e')
       end.

(** [for x in l: body(x)] *)
Fixpoint for_each {A} (l : list A) (body : A → M bytes unit) : M bytes unit :=
  match l with
  | [] => ret tt
  | x :: l' => bind (body x) (λ _, for_each l' body)
  end.

(** [getattr(o, field)] *)
Definition getattr (o : PyObj) (field : string) : M bytes PyVal :=
  match o !! field with
  | Some v => ret v
  | None => raise AttributeError
  end.

(** [getattr(o, field, None)] *)
Definition getattr_default (o : PyObj) (field : string) : PyVal :=
  default VNone (o !! field).

(** [setattr(response, field, v)], as a plain assignment to the attribute
    table of the response; a property of the response class with a setter
    of its own is outside this definition. *)
Definition setattr_response (field : string) (v : PyVal) : M bytes unit :=
  λ e, (Ok tt, mkEnv (redis e) (context e) (<[field := v]> (response e))).

Definition get_response : M bytes Response := λ e, (Ok (response e), e).

(** [request.context[key] = value] *)
Definition context_setitem (key : option string) (value : Response) : M bytes unit :=
  λ e, (Ok tt, mkEnv (redis e) (<[key := value]> (context e)) (response e)).

(** [request.context.pop(key)]: without a default, a missing key is a
    [KeyError]. *)
Definition context_pop (key : option string) : M bytes Response :=
  λ e, match context e !! key with
       | Some v => (Ok v, mkEnv (redis e) (delete key (context e)) (response e))
       | None => (Raise KeyError, e)
       end.

(** [conn.get(key)]; on [None] in place of a connection the attribute
    lookup fails. *)
Definition conn_get (conn : option Conn) (now : Z) (key : string) : M bytes (option bytes) :=
  match conn with
  | None => raise AttributeError
  | Some _ =>
      λ e, let '(v, r) := redis_get now key (redis e) in
           (Ok v, mkEnv r (context e) (response e))
  end.

Definition conn_setex (now : Z) (key : string) (value : bytes) (ttl : Z) : M bytes unit :=
  λ e, (Ok tt, mkEnv (redis_setex now key value ttl (redis e)) (context e) (response e)).
End Monad.

Declare Scope py_scope.
Delimit Scope py_scope with py.
Notation "x <- c1 ;; c2" := (bind c1 (λ x, c2))
  (at level 100, c1 at next level, right associativity) : py_scope.
Notation "c1 ;;; c2" := (bind c1 (λ _, c2))
  (at level 100, right associativity) : py_scope.
Open Scope py_scope.

(** [dir(o)]: the names of the attributes the table of [o] holds; the
    names the class of [o] adds to them (methods, properties) are not in
    the table. *)
Definition dir (o : PyObj) : list string := (map_to_list o).*1.

(** [value is True] *)
Definition is_True (v : PyVal) : bool :=
  match v with
  | VBool true => true
  | _ => false
  end.

(** ** [_BaseKlass] *)

Module _BaseKlass.
(** [__init__(self, redis_url=None, redis_connection=None,
    idempotency_ttl=3600)]; an argument that is not passed is [None]
    here, and [idempotency_ttl] then takes its default. *)
Definition __init__ (redis_url : option string) (redis_connection : option Conn)
    (idempotency_ttl : option Z) : result Middleware :=
  let self := {| _redis_url := redis_url;
                 _redis_connection := redis_connection;
                 _ttl := default 3600 idempotency_ttl |} in
  match redis_connection, redis_url with
  | None, None => Raise ValueError
  | _, _ => Ok self
  end.

(** The [idempotency_keyname] property; the framework matches header
    names without regard to case. *)
Definition idempotency_keyname : string := "idempotency-key".

(** The [redis_key] property, [FALCON_REQUEST_{method}_{idempotency_key}],
    with its two fields filled in as
    [self.redis_key.format(idempotency_key=..., method=...)] fills them. *)
Definition redis_key (method : string) (idempotency_key : option string) : string :=
  "FALCON_REQUEST_" +:+ method +:+ "_" +:+ py_str idempotency_key.

(** The [redis_conn] property: the connection passed at construction,
    else one made from a truthy URL, else [None]. *)
Definition redis_conn (self : Middleware) : option Conn :=
  match _redis_connection self with
  | Some c => Some c
  | None => if truthy (_redis_url self) then FromUrl <$> _redis_url self else None
  end.

Section Methods.
Context {bytes : Type} `{!Pickle bytes}.

Definition get_response_from_redis (self : Middleware) (now : Z)
    (idempotency_key : option string) (request : Request) : M bytes (option Response) :=
  let idempotency_key := redis_key (method request) idempotency_key in
  data <- conn_get (redis_conn self) now idempotency_key ;;
  match data with
  | Some data =>
      match loads data with
      | Some r => ret (Some r)
      | None => raise UnpicklingError
      end
  | None => ret None
  end.

(** In [self.redis_conn.setex(key, pickle.dumps(response), self._ttl)]
    the method is looked up on the connection before the arguments are
    evaluated. *)
Definition store_response_in_redis (self : Middleware) (now : Z)
    (idempotency_key : option string) (request : Request) (response : Response) : M bytes unit :=
  let new_idempotency_key := redis_key (method request) idempotency_key in
  match redis_conn self with
  | None => raise AttributeError
  | Some _ =>
      match dumps response with
      | Some value => conn_setex now new_idempotency_key value (_ttl self)
      | None => raise PicklingError
      end
  end.
End Methods.
End _BaseKlass.
Import _BaseKlass.

(** ** [SimpleIdempotencyMiddleware] *)

Module SimpleIdempotencyMiddleware.
Section Methods.
Context {bytes : Type} `{!Pickle bytes}.

Definition process_request (self : Middleware) (now : Z) (request : Request) : M bytes unit :=
  let idempotency_key := get_header request idempotency_keyname in
  if truthy idempotency_key then
    previous_response <- _BaseKlass.get_response_from_redis self now idempotency_key request ;;
    match previous_response with
    | Some previous_response =>
        context_setitem idempotency_key previous_response ;;;
        raise SentinelException
    | None => ret tt
    end
  else ret tt.

Definition process_response (self : Middleware) (now : Z) (request : Request) : M bytes unit :=
  let idempotency_key := get_header request idempotency_keyname in
  if truthy idempotency_key then
    response <- get_response ;;
    _BaseKlass.store_response_in_redis self now idempotency_key request response
  else ret tt.

Definition handler (self : Middleware) (request : Request) : M bytes unit :=
  let idempotency_key := get_header request idempotency_keyname in
  previous_response <- context_pop idempotency_key ;;
  for_each (dir previous_response) (λ field,
    v <- getattr previous_response field ;;
    setattr_response field v).
End Methods.
End SimpleIdempotencyMiddleware.

(** ** [IdempotencyMiddleware] *)

Module IdempotencyMiddleware.
Section Methods.
Context {bytes : Type} `{!Pickle bytes}.

Definition process_request (self : Middleware) (now : Z) (request : Request) : M bytes unit :=
  ret tt.

(** The first [if] falls through to the second when the flag is not
    [True]. *)
Definition process_resource (self : Middleware) (now : Z) (request : Request)
    (resource : Resource) : M bytes unit :=
  let on_delete :=
    if String.eqb (method request) "DELETE" then
      if is_True (getattr_default resource "idempotent_delete") then
        SimpleIdempotencyMiddleware.process_request self now request
      else ret tt
    else ret tt in
  if String.eqb (method request) "POST" then
    if is_True (getattr_default resource "idempotent_post") then
      SimpleIdempotencyMiddleware.process_request self now request
    else on_delete
  else on_delete.

Definition process_response (self : Middleware) (now : Z) (request : Request) : M bytes unit :=
  SimpleIdempotencyMiddleware.process_response self now request.

Definition handler (self : Middleware) (request : Request) : M bytes unit :=
  SimpleIdempotencyMiddleware.handler self request.
End Methods.
End IdempotencyMiddleware.

(** ** [mixins.py] *)

(** A resource class that inherits a mixin has the mixin's property; the
    property returns [True]. *)
Definition IdempotentPostMixin (resource : Resource) : Resource :=
  <["idempotent_post" := VBool true]> resource.

Definition IdempotentDeleteMixin (resource : Resource) : Resource :=
  <["idempotent_delete" := VBool true]> resource.

(** ** The host framework *)

(** The hooks a middleware object offers to the framework; [h_handler] is
    the error handler registered for [SentinelException]
    ([api.add_error_handler(SentinelException, middleware.handler)]). *)
Record Hooks (bytes : Type) : Type := mkHooks {
  h_process_request : Z → Request → M bytes unit;
  h_process_resource : Z → Request → Resource → M bytes unit;
  h_process_response : Z → Request → M bytes unit;
  h_handler : Request → M bytes unit
}.
Arguments mkHooks {bytes}.
Arguments h_process_request {bytes}.
Arguments h_process_resource {bytes}.
Arguments h_process_response {bytes}.
Arguments h_handler {bytes}.

Definition simple_hooks {bytes} `{!Pickle bytes} (self : Middleware) : Hooks bytes :=
  {| h_process_request := SimpleIdempotencyMiddleware.process_request self;
     h_process_resource := λ _ _ _, ret tt;
     h_process_response := SimpleIdempotencyMiddleware.process_response self;
     h_handler := SimpleIdempotencyMiddleware.handler self |}.

Definition optin_hooks {bytes} `{!Pickle bytes} (self : Middleware) : Hooks bytes :=
  {| h_process_request := IdempotencyMiddleware.process_request self;
     h_process_resource := IdempotencyMiddleware.process_resource self;
     h_process_response := IdempotencyMiddleware.process_response self;
     h_handler := IdempotencyMiddleware.handler self |}.

Section Host.
Context {bytes App : Type}.

(** What outlives a request: the Redis store, the state of the
    application behind the responders, and how many times a responder
    has run. *)
Record World : Type := mkWorld {
  w_redis : Redis bytes;
  w_app : App;
  w_invocations : nat
}.

(** The responder of the routed resource ([on_post], [on_delete], ...):
    it fills in the response and may change the application. *)
Variable responder : Request → Response → App → Response * App.

Definition handle_exception (mw : Hooks bytes) (request : Request) (ex : exn) : M bytes unit :=
  match ex with
  | SentinelException => h_handler mw request
  | _ => raise ex
  end.

(** Modelled from the spec: the dispatch of one request by the host
    framework ([falcon.API.__call__]), which is not part of the
    repository.  [process_request] runs first; unless it raised,
    [process_resource] and then the responder run; an exception goes to
    the error handler registered for it, or on to the caller;
    [process_response] runs last.  With [independent_middleware] unset
    (the default of the framework's early versions) the
    [process_response] of a middleware is skipped when its own
    [process_request] raised.  [resp0] is the response object the
    framework allocates for the request. *)
Definition dispatch (independent_middleware : bool) (mw : Hooks bytes) (now : Z)
    (request : Request) (resource : Resource) (resp0 : Response) (w : World)
    : result Response * World :=
  let env0 := mkEnv (w_redis w) (req_context request) resp0 in
  let '(r1, env1, app1, n1, queued) :=
    match h_process_request mw now request env0 with
    | (Raise ex, env) =>
        let '(r, env') := handle_exception mw request ex env in
        (r, env', w_app w, w_invocations w, independent_middleware)
    | (Ok _, env) =>
        match h_process_resource mw now request resource env with
        | (Raise ex, env) =>
            let '(r, env') := handle_exception mw request ex env in
            (r, env', w_app w, w_invocations w, true)
        | (Ok _, env) =>
            let '(resp, app) := responder request (response env) (w_app w) in
            (Ok tt, mkEnv (redis env) (context env) resp, app, S (w_invocations w), true)
        end
    end in
  let '(r2, env2) :=
    if queued then h_process_response mw now request env1 else (Ok tt, env1) in
  let final :=
    match r2, r1 with
    | Raise ex, _ => Raise ex
    | Ok _, Raise ex => Raise ex
    | Ok _, Ok _ => Ok (response env2)
    end in
  (final, {| w_redis := redis env2; w_app := app1; w_invocations := n1 |}).
End Host.
Arguments World : clear implicits.

(** ** A pickle codec *)

(** A pickle is a program for the unpickling machine: opcodes that push
    values on a stack, assemble dictionaries and set the attributes of the
    object under construction. *)
Inductive opcode : Type :=
  | NONE
  | NEWTRUE
  | NEWFALSE
  | BININT (z : Z)
  | BINUNICODE (s : string)
  | EMPTY_DICT
  | SETITEM
  | BUILD (attr : string).

Definition dump_item (kv : string * string) : list opcode :=
  [BINUNICODE kv.1; BINUNICODE kv.2; SETITEM].

Definition dump_value (v : PyVal) : option (list opcode) :=
  match v with
  | VNone => Some [NONE]
  | VBool true => Some [NEWTRUE]
  | VBool false => Some [NEWFALSE]
  | VInt z => Some [BININT z]
  | VStr s => Some [BINUNICODE s]
  | VDict d => Some (EMPTY_DICT :: flat_map dump_item d)
  | VStream _ => None
  end.

Fixpoint dump_attrs (l : list (string * PyVal)) : option (list opcode) :=
  match l with
  | [] => Some []
  | (k, v) :: l' =>
      match dump_value v, dump_attrs l' with
      | Some ops, Some rest => Some (ops ++ BUILD k :: rest)%list
      | _, _ => None
      end
  end.

(** Modelled from the spec: [pickle.dumps] of Python's standard library,
    absent from the repository.  It captures every attribute of the
    response (status, headers, body and the rest) and fails when the
    response carries state that cannot be serialised, an open stream. *)
Definition pickle_dumps (o : PyObj) : option (list opcode) :=
  dump_attrs (map_to_list o).

Definition step (op : opcode) (st : list PyVal * PyObj) : option (list PyVal * PyObj) :=
  let '(stack, obj) := st in
  match op, stack with
  | NONE, _ => Some (VNone :: stack, obj)
  | NEWTRUE, _ => Some (VBool true :: stack, obj)
  | NEWFALSE, _ => Some (VBool false :: stack, obj)
  | BININT z, _ => Some (VInt z :: stack, obj)
  | BINUNICODE s, _ => Some (VStr s :: stack, obj)
  | EMPTY_DICT, _ => Some (VDict [] :: stack, obj)
  | SETITEM, VStr v :: VStr k :: VDict d :: stack' =>
      Some (VDict (d ++ [(k, v)])%list :: stack', obj)
  | BUILD attr, v :: stack' => Some (stack', <[attr := v]> obj)
  | _, _ => None
  end.

Fixpoint run (ops : list opcode) (st : list PyVal * PyObj) : option (list PyVal * PyObj) :=
  match ops with
  | [] => Some st
  | op :: ops' =>
      match step op st with
      | Some st' => run ops' st'
      | None => None
      end
  end.

(** Modelled from the spec: [pickle.loads] of Python's standard library,
    absent from the repository.  It rebuilds the object a pickle
    describes and fails on bytes that are not a pickle. *)
Definition pickle_loads (b : list opcode) : option PyObj :=
  match run b ([], ∅) with
  | Some ([], obj) => Some obj
  | _ => None
  end.

(** [setattr] of a list of attributes, first to last. *)
Definition set_attrs (o : PyObj) (l : list (string * PyVal)) : PyObj :=
  foldl (λ acc kv, <[kv.1 := kv.2]> acc) o l.

(** ** The scope policy, as the specification words it *)

(** [applies(method, resource)]: the resource declares the capability flag
    of the method, [idempotent_post] for POST and [idempotent_delete] for
    DELETE, and the flag is exactly [True]. *)
Definition applies (method : string) (resource : Resource) : bool :=
  (String.eqb method "POST"
   && bool_decide (resource !! "idempotent_post" = Some (VBool true)))
  || (String.eqb method "DELETE"
      && bool_decide (resource !! "idempotent_delete" = Some (VBool true))).

(** ** The resources and requests of the test suite *)

(** [response.set_header(name, value)] *)
Definition set_header (name value : string) (resp : Response) : Response :=
  match resp !! "_headers" with
  | Some (VDict d) =>
      <["_headers" := VDict (filter (λ kv, kv.1 ≠ name) d ++ [(name, value)])%list]> resp
  | _ => resp
  end.

(** [result.headers[name]] as the tests read it off what the test client
    returns: [None] when the request ended in an error or the header is
    not set. *)
Definition result_header (name : string) (out : result Response) : option string :=
  match out with
  | Ok resp =>
      match resp !! "_headers" with
      | Some (VDict d) => snd <$> List.find (λ kv, String.eqb kv.1 name) d
      | _ => None
      end
  | Raise _ => None
  end.

(** [str(uuid.uuid4())]: the application state is the number of
    identifiers drawn so far, and every draw is new. *)
Definition transaction_id (n : nat) : string := "txn-" +:+ pretty n.

(** [VanillaResource.on_post] and [on_delete] of [tests/conftest.py] *)
Definition vanilla_responder (request : Request) (resp : Response) (n : nat) : Response * nat :=
  (set_header "trans_id" (transaction_id n) resp, S n).

(** A responder that streams its body from an open file. *)
Definition streaming_responder (request : Request) (resp : Response) (n : nat) : Response * nat :=
  (<["stream" := VStream 3]> resp, S n).

Definition VanillaResource : Resource := ∅.
Definition POSTOnly : Resource := IdempotentPostMixin VanillaResource.
Definition DELETEOnly : Resource := IdempotentDeleteMixin VanillaResource.

(** The response object the framework hands to every request. *)
Definition default_response : Response :=
  list_to_map [("status", VStr "200 OK"); ("_headers", VDict []);
               ("body", VNone); ("stream", VNone)].

(** [SimpleIdempotencyMiddleware(redis_connection=redis, idempotency_ttl=3600)] *)
Definition test_middleware : Middleware :=
  mkMiddleware None (Some (Supplied "mock")) 3600.

Definition request_with (method : string) (key : option string) : Request :=
  mkRequest method
    (match key with
     | Some k => {[idempotency_keyname := k]}
     | None => ∅
     end) ∅.

Definition empty_redis : Redis (list opcode) := mkRedis ∅ [].

Definition fresh_world : World (list opcode) nat := mkWorld empty_redis 0%nat 0%nat.

(** ** The connection property, with its assignment *)

(** The [redis_conn] property as it is written: when no connection is
    held and the URL is truthy, a connection made from the URL is
    assigned to [self._redis_connection]; what is returned is
    [self._redis_connection] after that. *)
Definition redis_conn_assigning (self : Middleware) : option Conn * Middleware :=
  let connection := _redis_connection self in
  let self' :=
    match connection with
    | None =>
        if truthy (_redis_url self)
        then mkMiddleware (_redis_url self) (FromUrl <$> _redis_url self) (_ttl self)
        else self
    | Some _ => self
    end in
  (_redis_connection self', self').

(** ** The commands the middleware sends *)

(** The key a command addresses. *)
Definition call_key {bytes : Type} (c : RedisCall bytes) : string :=
  match c with
  | GET key => key
  | SETEX key _ _ => key
  end.

(** The keys built from the [redis_key] template start with its literal
    head. *)
Definition in_namespace (key : string) : bool :=
  String.prefix "FALCON_REQUEST_" key.

(** A responder of another resource: it fills in the body. *)
Definition body_responder (request : Request) (resp : Response) (n : nat) : Response * nat :=
  (<["body" := VStr "done"]> resp, S n).

(** * Properties *)

(** ** Key derivation *)

Lemma redis_key_prefix_inj m1 k1 m2 k2 :
  redis_key m1 k1 = redis_key m2 k2 →
  m1 +:+ "_" +:+ py_str k1 = m2 +:+ "_" +:+ py_str k2.
Proof. unfold redis_key. cbn. intros H. by simplify_eq. Qed.

Lemma split_at_first_underscore m1 m2 t1 t2 :
  has_char underscore m1 = false →
  has_char underscore m2 = false →
  m1 +:+ String underscore t1 = m2 +:+ String underscore t2 →
  m1 = m2 ∧ t1 = t2.
Proof.
  revert m2. induction m1 as [|a m1 IH]; intros [|b m2]; cbn; intros H1 H2 E.
  - by simplify_eq.
  - by simplify_eq.
  - by simplify_eq.
  - injection E as -> E.
    destruct (Ascii.eqb b underscore); [done|].
    destruct (IH m2 H1 H2 E) as [-> ->]. done.
Qed.

Lemma redis_key_inj_no_underscore m1 m2 k1 k2 :
  has_char underscore m1 = false →
  has_char underscore m2 = false →
  redis_key m1 k1 = redis_key m2 k2 →
  m1 = m2 ∧ py_str k1 = py_str k2.
Proof.
  intros H1 H2 E. apply redis_key_prefix_inj in E.
  by apply split_at_first_underscore.
Qed.

(** C3, as stated, fails: the separator of the key template may occur in
    either field, so the method [POST] with the header value [AB_CD] and
    the method [POST_AB] with the header value [CD] derive the same cache
    key. *)
Lemma redis_key_not_injective :
  ¬ (∀ m1 h1 m2 h2 : string,
       h1 ≠ "" → h2 ≠ "" →
       (redis_key m1 (Some h1) = redis_key m2 (Some h2) ↔ m1 = m2 ∧ h1 = h2)).
Proof.
  intros H.
  destruct (H "POST" "AB_CD" "POST_AB" "CD") as [Hkey _]; [done|done|].
  destruct Hkey as [Hm _]; [reflexivity|discriminate Hm].
Qed.

(** C3, amended: the cache key is a function of the method and the header
    value alone, and for methods without an underscore (every standard
    HTTP verb) two pairs derive the same key exactly when the methods are
    equal and the header values are equal. *)
Theorem redis_key_injective (m1 m2 h1 h2 : string) :
  has_char underscore m1 = false →
  has_char underscore m2 = false →
  (redis_key m1 (Some h1) = redis_key m2 (Some h2) ↔ m1 = m2 ∧ h1 = h2).
Proof.
  intros H1 H2. split.
  - intros E. by apply (redis_key_inj_no_underscore m1 m2 (Some h1) (Some h2)).
  - by intros [-> ->].
Qed.

Lemma redis_key_injective_witness :
  (redis_key "POST" (Some "ABCD") = redis_key "DELETE" (Some "ABCD")
     ↔ "POST" = "DELETE" ∧ "ABCD" = "ABCD")
  ∧ (redis_key "POST" (Some "ABCD") = redis_key "POST" (Some "ABCD")
     ↔ "POST" = "POST" ∧ "ABCD" = "ABCD").
Proof.
  split.
  - apply (redis_key_injective "POST" "DELETE" "ABCD" "ABCD"); reflexivity.
  - apply (redis_key_injective "POST" "POST" "ABCD" "ABCD"); reflexivity.
Defined.

Example redis_key_post : redis_key "POST" (Some "ABCD") = "FALCON_REQUEST_POST_ABCD".
Proof. reflexivity. Qed.

Example redis_key_collision :
  redis_key "POST" (Some "AB_CD") = "FALCON_REQUEST_POST_AB_CD"
  ∧ redis_key "POST_AB" (Some "CD") = "FALCON_REQUEST_POST_AB_CD".
Proof. split; reflexivity. Qed.

(** ** Construction *)

Lemma init_ok url conn ttl self :
  __init__ url conn ttl = Ok self →
  self = mkMiddleware url conn (default 3600 ttl) ∧ (url ≠ None ∨ conn ≠ None).
Proof.
  unfold __init__. destruct conn, url; intros E; simplify_eq; split; auto.
Qed.

(** ** The codec round trip *)

Lemma run_dump_items d acc rest stack obj :
  run (flat_map dump_item d ++ rest)%list (VDict acc :: stack, obj)
  = run rest (VDict (acc ++ d)%list :: stack, obj).
Proof.
  revert acc. induction d as [|[k v] d IH]; intros acc; cbn.
  - by rewrite app_nil_r.
  - rewrite IH. by rewrite <- app_assoc.
Qed.

Lemma run_dump_value v ops rest stack obj :
  dump_value v = Some ops →
  run (ops ++ rest)%list (stack, obj) = run rest (v :: stack, obj).
Proof.
  destruct v as [| [|] | z | s | d | fd]; cbn; intros E; simplify_eq; try done.
  cbn. apply (run_dump_items d []).
Qed.

Lemma run_dump_attrs l ops rest stack obj :
  dump_attrs l = Some ops →
  run (ops ++ rest)%list (stack, obj) = run rest (stack, set_attrs obj l).
Proof.
  revert ops obj. induction l as [|[k v] l IH]; intros ops obj; cbn.
  - intros E. by simplify_eq.
  - destruct (dump_value v) as [ops_v|] eqn:Ev; [|done].
    destruct (dump_attrs l) as [ops_l|] eqn:El; [|done].
    intros E. simplify_eq.
    rewrite <- app_assoc. rewrite (run_dump_value v ops_v _ stack obj Ev).
    cbn. by apply IH.
Qed.

Lemma set_attrs_union (l : list (string * PyVal)) (o : PyObj) :
  NoDup l.*1 → set_attrs o l = list_to_map l ∪ o.
Proof.
  revert o. induction l as [|[k v] l IH]; intros o Hnd.
  - cbn. by rewrite (left_id_L ∅ (∪)).
  - rewrite fmap_cons in Hnd. apply NoDup_cons in Hnd as [Hk Hnd].
    change (set_attrs o ((k, v) :: l)) with (set_attrs (<[k:=v]> o) l).
    rewrite IH by done. rewrite list_to_map_cons.
    rewrite <- insert_union_l. symmetry.
    apply insert_union_r. by apply not_elem_of_list_to_map_1.
Qed.

Lemma set_attrs_map_to_list (o o' : PyObj) :
  set_attrs o' (map_to_list o) = o ∪ o'.
Proof.
  rewrite set_attrs_union by apply NoDup_fst_map_to_list.
  by rewrite list_to_map_to_list.
Qed.

Lemma pickle_loads_dumps o b :
  pickle_dumps o = Some b → pickle_loads b = Some o.
Proof.
  unfold pickle_dumps, pickle_loads. intros E.
  rewrite <- (app_nil_r b).
  rewrite (run_dump_attrs _ _ [] [] ∅ E). cbn.
  rewrite set_attrs_map_to_list. by rewrite (right_id_L ∅ (∪)).
Qed.

#[global] Instance pickle_codec : Pickle (list opcode) :=
  {| dumps := pickle_dumps; loads := pickle_loads; loads_dumps := pickle_loads_dumps |}.

(** ** The Redis store *)

Section RedisProperties.
Context {bytes : Type}.
Implicit Types (r : Redis bytes) (d : gmap string (bytes * Z)).

Lemma do_expire_lookup_live now d key value expiry :
  d !! key = Some (value, expiry) → now ≤ expiry →
  do_expire now d !! key = Some (value, expiry).
Proof.
  intros Hd Hle. unfold do_expire. apply map_lookup_filter_Some. split; [done|].
  unfold live. cbn. by apply Z.leb_le.
Qed.

Lemma do_expire_lookup_None now d key :
  d !! key = None → do_expire now d !! key = None.
Proof. intros Hd. unfold do_expire. by apply map_lookup_filter_None_2; left. Qed.

Lemma do_expire_lookup_expired now d key value expiry :
  d !! key = Some (value, expiry) → expiry < now →
  do_expire now d !! key = None.
Proof.
  intros Hd Hlt. unfold do_expire. apply map_lookup_filter_None_2. right.
  intros x Hx. rewrite Hd in Hx. simplify_eq. unfold live. cbn.
  intros Hlive. apply Z.leb_le in Hlive. lia.
Qed.

Lemma redis_get_setex now1 now2 key value ttl r :
  now2 ≤ now1 + ttl →
  (redis_get now2 key (redis_setex now1 key value ttl r)).1 = Some value.
Proof.
  intros Hle. unfold redis_get, redis_setex. cbn.
  erewrite do_expire_lookup_live; [done| |done]. by rewrite lookup_insert_eq.
Qed.
End RedisProperties.

(** ** The methods of the middleware *)

Section MethodProperties.
Context {bytes : Type} `{!Pickle bytes}.
Implicit Types (e : Env bytes) (self : Middleware) (request : Request).

Lemma for_each_setattr (prev : PyObj) (l : list (string * PyVal)) e :
  (∀ kv, kv ∈ l → prev !! kv.1 = Some kv.2) →
  for_each l.*1 (λ field, v <- getattr prev field ;; setattr_response field v) e
  = (Ok tt, mkEnv (redis e) (context e) (set_attrs (response e) l)).
Proof.
  revert e. induction l as [|[k v] l IH]; intros e Hl.
  - by destruct e.
  - pose proof (Hl (k, v) (list_elem_of_here _ _)) as Hk. cbn in Hk.
    rewrite fmap_cons. cbn [for_each fst]. unfold bind at 1, getattr.
    rewrite Hk. unfold bind at 1, ret, setattr_response at 1.
    rewrite IH; [done|]. intros kv Hkv. apply Hl. by apply list_elem_of_further.
Qed.

(** The replay loop copies every attribute of the snapshot and leaves
    the attributes the snapshot lacks as they were. *)
Lemma for_each_dir (prev : PyObj) e :
  for_each (dir prev) (λ field, v <- getattr prev field ;; setattr_response field v) e
  = (Ok tt, mkEnv (redis e) (context e) (prev ∪ response e)).
Proof.
  unfold dir. rewrite for_each_setattr.
  - by rewrite set_attrs_map_to_list.
  - intros [k v] Hkv. by apply elem_of_map_to_list in Hkv.
Qed.

Lemma handler_eq self request e :
  SimpleIdempotencyMiddleware.handler self request e
  = match context e !! get_header request idempotency_keyname with
    | Some prev =>
        (Ok tt, mkEnv (redis e)
                  (delete (get_header request idempotency_keyname) (context e))
                  (prev ∪ response e))
    | None => (Raise KeyError, e)
    end.
Proof.
  unfold SimpleIdempotencyMiddleware.handler, bind at 1, context_pop.
  destruct (context e !! _) as [prev|]; [|done].
  by rewrite for_each_dir.
Qed.
End MethodProperties.

Section EngineProperties.
Context {bytes : Type} `{!Pickle bytes}.
Implicit Types (e : Env bytes) (self : Middleware) (request : Request).

Lemma process_request_falsy self now request e :
  truthy (get_header request idempotency_keyname) = false →
  SimpleIdempotencyMiddleware.process_request self now request e = (Ok tt, e).
Proof. intros Hk. unfold SimpleIdempotencyMiddleware.process_request. by rewrite Hk. Qed.

Lemma process_response_falsy self now request e :
  truthy (get_header request idempotency_keyname) = false →
  SimpleIdempotencyMiddleware.process_response self now request e = (Ok tt, e).
Proof. intros Hk. unfold SimpleIdempotencyMiddleware.process_response. by rewrite Hk. Qed.

Lemma store_response_ok self now key request (r : Response) value e :
  is_Some (redis_conn self) → dumps r = Some value →
  _BaseKlass.store_response_in_redis self now key request r e
  = (Ok tt, mkEnv (redis_setex now (redis_key (method request) key) value (_ttl self) (redis e))
              (context e) (response e)).
Proof.
  intros [c Hc] Hd. unfold _BaseKlass.store_response_in_redis. by rewrite Hc, Hd.
Qed.

Lemma store_response_pickling_error self now key request (r : Response) e :
  is_Some (redis_conn self) → dumps r = None →
  _BaseKlass.store_response_in_redis self now key request r e = (Raise PicklingError, e).
Proof.
  intros [c Hc] Hd. unfold _BaseKlass.store_response_in_redis. by rewrite Hc, Hd.
Qed.

Lemma get_response_hit self now key request value expiry (r : Response) e :
  is_Some (redis_conn self) →
  data (redis e) !! redis_key (method request) key = Some (value, expiry) →
  now ≤ expiry → loads value = Some r →
  _BaseKlass.get_response_from_redis self now key request e
  = (Ok (Some r),
     mkEnv (redis_get now (redis_key (method request) key) (redis e)).2
       (context e) (response e)).
Proof.
  intros [c Hc] Hd Hlt Hl. unfold _BaseKlass.get_response_from_redis.
  rewrite Hc. unfold bind, conn_get, redis_get. cbn.
  rewrite (do_expire_lookup_live _ _ _ _ _ Hd Hlt). cbn. by rewrite Hl.
Qed.

Lemma get_response_miss self now key request e :
  is_Some (redis_conn self) →
  do_expire now (data (redis e)) !! redis_key (method request) key = None →
  _BaseKlass.get_response_from_redis self now key request e
  = (Ok None,
     mkEnv (redis_get now (redis_key (method request) key) (redis e)).2
       (context e) (response e)).
Proof.
  intros [c Hc] Hd. unfold _BaseKlass.get_response_from_redis.
  rewrite Hc. unfold bind, conn_get, redis_get. cbn. by rewrite Hd.
Qed.

(** Storing a response and reading it back before it expires. *)
Lemma store_then_get self now1 now2 key request (r : Response) value e :
  is_Some (redis_conn self) → dumps r = Some value → now2 ≤ now1 + _ttl self →
  (_BaseKlass.get_response_from_redis self now2 key request
     (_BaseKlass.store_response_in_redis self now1 key request r e).2).1
  = Ok (Some r).
Proof.
  intros Hc Hd Hlt. rewrite (store_response_ok _ _ _ _ _ value) by done. cbn [snd].
  erewrite get_response_hit; [done|done| |done|by eapply loads_dumps].
  cbn. by rewrite lookup_insert_eq.
Qed.

Lemma process_request_hit self now request value expiry (prev : Response) e :
  truthy (get_header request idempotency_keyname) = true →
  is_Some (redis_conn self) →
  data (redis e)
    !! redis_key (method request) (get_header request idempotency_keyname)
    = Some (value, expiry) →
  now ≤ expiry → loads value = Some prev →
  SimpleIdempotencyMiddleware.process_request self now request e
  = (Raise SentinelException,
     mkEnv
       (redis_get now
          (redis_key (method request) (get_header request idempotency_keyname))
          (redis e)).2
       (<[get_header request idempotency_keyname := prev]> (context e))
       (response e)).
Proof.
  intros Hk Hc Hd Hlt Hl. unfold SimpleIdempotencyMiddleware.process_request.
  rewrite Hk. unfold bind at 1.
  by rewrite (get_response_hit _ _ _ _ value expiry prev).
Qed.

Lemma process_request_miss self now request e :
  truthy (get_header request idempotency_keyname) = true →
  is_Some (redis_conn self) →
  do_expire now (data (redis e))
    !! redis_key (method request) (get_header request idempotency_keyname) = None →
  SimpleIdempotencyMiddleware.process_request self now request e
  = (Ok tt,
     mkEnv
       (redis_get now
          (redis_key (method request) (get_header request idempotency_keyname))
          (redis e)).2
       (context e) (response e)).
Proof.
  intros Hk Hc Hd. unfold SimpleIdempotencyMiddleware.process_request.
  rewrite Hk. unfold bind at 1. by rewrite get_response_miss.
Qed.

(** What [process_request] can do: return having touched nothing but
    Redis, raise the sentinel after stashing a snapshot under the header
    value, or pass on an error of the lookup. *)
Lemma process_request_cases self now request e :
  let key := get_header request idempotency_keyname in
  let out := SimpleIdempotencyMiddleware.process_request self now request e in
  (out.1 = Ok tt ∧ context out.2 = context e ∧ response out.2 = response e)
  ∨ (truthy key = true ∧ out.1 = Raise SentinelException
     ∧ response out.2 = response e
     ∧ ∃ prev, context out.2 = <[key := prev]> (context e))
  ∨ (out.1 = Raise AttributeError ∧ out.2 = e)
  ∨ (out.1 = Raise UnpicklingError ∧ context out.2 = context e
     ∧ response out.2 = response e).
Proof.
  cbn zeta. unfold SimpleIdempotencyMiddleware.process_request.
  destruct (truthy _) eqn:Hk; [|by left].
  unfold bind, _BaseKlass.get_response_from_redis, conn_get, redis_get,
    context_setitem, ret, raise.
  destruct (redis_conn self) as [c|]; [|by right; right; left].
  cbn. destruct (do_expire _ _ !! _) as [[value expiry]|]; cbn; [|by left].
  destruct (loads value) as [prev|]; cbn.
  - right; left. repeat split; eauto.
  - by right; right; right.
Qed.

Lemma process_response_store self now request value e :
  truthy (get_header request idempotency_keyname) = true →
  is_Some (redis_conn self) → dumps (response e) = Some value →
  SimpleIdempotencyMiddleware.process_response self now request e
  = (Ok tt,
     mkEnv
       (redis_setex now
          (redis_key (method request) (get_header request idempotency_keyname))
          value (_ttl self) (redis e))
       (context e) (response e)).
Proof.
  intros Hk Hc Hd. unfold SimpleIdempotencyMiddleware.process_response.
  rewrite Hk. unfold bind, get_response.
  by rewrite (store_response_ok _ _ _ _ _ value).
Qed.

Lemma process_response_pickling_error self now request e :
  truthy (get_header request idempotency_keyname) = true →
  is_Some (redis_conn self) → dumps (response e) = None →
  SimpleIdempotencyMiddleware.process_response self now request e
  = (Raise PicklingError, e).
Proof.
  intros Hk Hc Hd. unfold SimpleIdempotencyMiddleware.process_response.
  rewrite Hk. unfold bind, get_response.
  by rewrite store_response_pickling_error.
Qed.
End EngineProperties.

(** ** Requests through the host *)

Section HostProperties.
Context {bytes App : Type} `{!Pickle bytes}.
Variable responder : Request → Response → App → Response * App.
Implicit Types (self : Middleware) (request : Request) (w : World bytes App).

Lemma dispatch_simple_no_key independent self now request resource resp0 w :
  truthy (get_header request idempotency_keyname) = false →
  dispatch responder independent (simple_hooks self) now request resource resp0 w
  = (Ok (responder request resp0 (w_app w)).1,
     mkWorld (w_redis w) (responder request resp0 (w_app w)).2 (S (w_invocations w))).
Proof.
  intros Hk. unfold dispatch, simple_hooks.
  cbn [h_process_request h_process_resource h_process_response h_handler].
  rewrite (process_request_falsy _ _ _ _ Hk). unfold ret at 1. cbn [response].
  destruct (responder request resp0 (w_app w)) as [resp app]. cbn [fst snd].
  by rewrite (process_response_falsy _ _ _ _ Hk).
Qed.

Lemma process_resource_falsy self now request resource (e : Env bytes) :
  truthy (get_header request idempotency_keyname) = false →
  IdempotencyMiddleware.process_resource self now request resource e = (Ok tt, e).
Proof.
  intros Hk. unfold IdempotencyMiddleware.process_resource.
  repeat case_match; try done; by apply process_request_falsy.
Qed.

Lemma dispatch_optin_no_key independent self now request resource resp0 w :
  truthy (get_header request idempotency_keyname) = false →
  dispatch responder independent (optin_hooks self) now request resource resp0 w
  = (Ok (responder request resp0 (w_app w)).1,
     mkWorld (w_redis w) (responder request resp0 (w_app w)).2 (S (w_invocations w))).
Proof.
  intros Hk. unfold dispatch, optin_hooks.
  cbn [h_process_request h_process_resource h_process_response h_handler].
  unfold IdempotencyMiddleware.process_request, ret at 1.
  rewrite (process_resource_falsy _ _ _ _ _ Hk). cbn [response].
  destruct (responder request resp0 (w_app w)) as [resp app]. cbn [fst snd].
  unfold IdempotencyMiddleware.process_response.
  by rewrite (process_response_falsy _ _ _ _ Hk).
Qed.

(** A request with a key whose responder ran and whose dispatch
    returned normally has left its response in the store. *)
Lemma dispatch_simple_stored independent self now request resource resp0 w
    (r : Response) w' :
  let key := get_header request idempotency_keyname in
  truthy key = true → is_Some (redis_conn self) →
  dispatch responder independent (simple_hooks self) now request resource resp0 w
  = (Ok r, w') →
  w_invocations w' = S (w_invocations w) →
  r = (responder request resp0 (w_app w)).1
  ∧ ∃ value, dumps r = Some value
      ∧ data (w_redis w') !! redis_key (method request) key = Some (value, now + _ttl self).
Proof.
  intros key Hk Hc. unfold dispatch, simple_hooks.
  cbn [h_process_request h_process_resource h_process_response h_handler].
  pose proof (process_request_cases self now request
                (mkEnv (w_redis w) (req_context request) resp0)) as Hcases.
  cbn zeta in Hcases.
  destruct (SimpleIdempotencyMiddleware.process_request _ _ _ _) as [[[]|ex] env1].
  - assert (response env1 = resp0) as Hresp.
    { cbn in Hcases.
      destruct Hcases as [(_ & _ & H)|[(_ & H & _)|[(H & _)|(H & _)]]];
        [exact H|discriminate H..]. }
    unfold ret at 1. rewrite Hresp.
    destruct (responder request resp0 (w_app w)) as [resp app] eqn:Hr.
    destruct (dumps resp) as [value|] eqn:Hd.
    + rewrite (process_response_store _ _ _ value) by done.
      intros E _. simplify_eq. cbn. split; [done|].
      exists value. split; [done|]. by rewrite lookup_insert_eq.
    + rewrite process_response_pickling_error by done. intros E. by simplify_eq.
  - destruct (handle_exception _ _ _ _) as [r1 env2].
    destruct (if independent then _ else _) as [r2 env3].
    intros E Hn. simplify_eq. cbn in Hn. lia.
Qed.

(** A request with a key that finds nothing live under it runs the
    responder and stores what the responder produced. *)
Lemma dispatch_simple_miss independent self now request resource resp0 w value :
  let key := get_header request idempotency_keyname in
  let rk := redis_key (method request) key in
  let handled := responder request resp0 (w_app w) in
  truthy key = true → is_Some (redis_conn self) →
  do_expire now (data (w_redis w)) !! rk = None →
  dumps handled.1 = Some value →
  dispatch responder independent (simple_hooks self) now request resource resp0 w
  = (Ok handled.1,
     mkWorld (redis_setex now rk value (_ttl self) (redis_get now rk (w_redis w)).2)
       handled.2 (S (w_invocations w))).
Proof.
  intros key rk handled Hk Hc Hmiss Hd. unfold dispatch, simple_hooks.
  cbn [h_process_request h_process_resource h_process_response h_handler].
  rewrite process_request_miss by done. unfold ret at 1. cbn [response].
  subst handled. destruct (responder request resp0 (w_app w)) as [resp app].
  cbn [fst snd] in *.
  by rewrite (process_response_store _ _ _ value) by done.
Qed.

(** Once the TTL of an entry has elapsed, a request with its key is a
    fresh request. *)
Lemma dispatch_simple_expired independent self now request resource resp0 w
    old expiry value :
  let key := get_header request idempotency_keyname in
  let rk := redis_key (method request) key in
  let handled := responder request resp0 (w_app w) in
  truthy key = true → is_Some (redis_conn self) →
  data (w_redis w) !! rk = Some (old, expiry) → expiry < now →
  dumps handled.1 = Some value →
  (dispatch responder independent (simple_hooks self) now request resource resp0 w).1
  = Ok handled.1
  ∧ w_invocations
      (dispatch responder independent (simple_hooks self) now request resource resp0 w).2
    = S (w_invocations w).
Proof.
  intros key rk handled Hk Hc Hd Hlt Hdumps.
  rewrite (dispatch_simple_miss independent self now request resource resp0 w value);
    [done|done|done| |done].
  by eapply do_expire_lookup_expired.
Qed.

(** A request whose pre-handler phase raised does not reach the
    responder, whatever the error handler and the post-handler phase do
    with it. *)
Lemma dispatch_raised_in_request independent (mw : Hooks bytes) now request resource
    resp0 w ex env :
  h_process_request mw now request (mkEnv (w_redis w) (req_context request) resp0)
  = (Raise ex, env) →
  w_invocations (dispatch responder independent mw now request resource resp0 w).2
  = w_invocations w
  ∧ w_app (dispatch responder independent mw now request resource resp0 w).2 = w_app w.
Proof.
  intros Hreq. unfold dispatch. rewrite Hreq.
  destruct (handle_exception mw request ex env) as [r env'].
  destruct independent; [|done].
  by destruct (h_process_response mw now request env') as [r2 env2].
Qed.

(** Nor does a request whose [process_resource] raised. *)
Lemma dispatch_raised_in_resource independent (mw : Hooks bytes) now request resource
    resp0 w env ex env' :
  h_process_request mw now request (mkEnv (w_redis w) (req_context request) resp0)
  = (Ok tt, env) →
  h_process_resource mw now request resource env = (Raise ex, env') →
  w_invocations (dispatch responder independent mw now request resource resp0 w).2
  = w_invocations w
  ∧ w_app (dispatch responder independent mw now request resource resp0 w).2 = w_app w.
Proof.
  intros Hreq Hres. unfold dispatch. rewrite Hreq, Hres.
  destruct (handle_exception mw request ex env') as [r env''].
  by destruct (h_process_response mw now request env'') as [r2 env2].
Qed.
End HostProperties.

Lemma union_absorbs_dom (snap resp : PyObj) :
  dom resp ⊆ dom snap → snap ∪ resp = snap.
Proof.
  intros Hdom. apply map_eq. intros f. rewrite lookup_union.
  destruct (snap !! f) as [v|] eqn:Hs; destruct (resp !! f) as [v'|] eqn:Hr; try done.
  assert (f ∈ dom snap) as Hin by (apply Hdom, elem_of_dom; eauto).
  apply elem_of_dom in Hin as [v Hv]. congruence.
Qed.

(** ** The snapshot codec *)

(** C2: for every response whose encoding succeeds, decoding the encoded
    snapshot gives the response back, equal in every attribute and so in
    status, headers and body; the same holds through the cache, for a
    response stored by [store_response_in_redis] and read back by
    [get_response_from_redis] before it expires. *)
Theorem snapshot_roundtrip (r : Response) (b : list opcode) (self : Middleware)
    (now1 now2 : Z) (key : option string) (request : Request) (e : Env (list opcode)) :
  pickle_dumps r = Some b →
  is_Some (redis_conn self) →
  now2 < now1 + _ttl self →
  pickle_loads b = Some r
  ∧ ∃ r',
      (_BaseKlass.get_response_from_redis self now2 key request
         (_BaseKlass.store_response_in_redis self now1 key request r e).2).1
      = Ok (Some r')
      ∧ r' !! "status" = r !! "status"
      ∧ r' !! "_headers" = r !! "_headers"
      ∧ r' !! "body" = r !! "body"
      ∧ r' = r.
Proof.
  intros Hd Hc Hlt. split; [by apply pickle_loads_dumps|].
  exists r. split; [|done].
  apply (store_then_get self now1 now2 key request r b e); [done|done|lia].
Qed.

Lemma snapshot_roundtrip_witness :
  let r := set_header "trans_id" (transaction_id 7) default_response in
  ∃ b, pickle_dumps r = Some b
    ∧ pickle_loads b = Some r
    ∧ ∃ r',
        (_BaseKlass.get_response_from_redis test_middleware 3699 (Some "ABCD")
           (request_with "POST" (Some "ABCD"))
           (_BaseKlass.store_response_in_redis test_middleware 100 (Some "ABCD")
              (request_with "POST" (Some "ABCD")) r
              (mkEnv empty_redis ∅ r)).2).1
        = Ok (Some r')
        ∧ r' !! "status" = r !! "status"
        ∧ r' !! "_headers" = r !! "_headers"
        ∧ r' !! "body" = r !! "body"
        ∧ r' = r.
Proof.
  cbv zeta.
  destruct (pickle_dumps (set_header "trans_id" (transaction_id 7) default_response))
    as [b|] eqn:Hd; [|vm_compute in Hd; discriminate Hd].
  exists b. split; [reflexivity|].
  apply (snapshot_roundtrip _ b test_middleware 100 3699 (Some "ABCD")
           (request_with "POST" (Some "ABCD"))
           (mkEnv empty_redis ∅
              (set_header "trans_id" (transaction_id 7) default_response))).
  - exact Hd.
  - by eexists.
  - reflexivity.
Defined.

(** ** The post-handler phase *)

(** C4, as stated, fails: after a replay the post-handler phase writes to
    the cache all the same.  The POST below, to a resource that opted in,
    finds the snapshot a first request stored at time 100; the sentinel
    is raised and the handler replays the snapshot; [process_response] at
    time 200 then issues a [SETEX], and the store it leaves is not the
    store it found. *)
Lemma replay_state_still_writes :
  ¬ (∀ (self : Middleware) (now : Z) (request : Request) (resource : Resource)
       (e e1 e2 : Env (list opcode)),
       IdempotencyMiddleware.process_resource self now request resource e
       = (Raise SentinelException, e1) →
       IdempotencyMiddleware.handler self request e1 = (Ok tt, e2) →
       redis (IdempotencyMiddleware.process_response self now request e2).2
       = redis e2).
Proof.
  intros H.
  pose (request := request_with "POST" (Some "ABCD")).
  pose (e := mkEnv
               (dispatch vanilla_responder false (optin_hooks test_middleware) 100 request
                  POSTOnly default_response fresh_world).2.(w_redis)
               ∅ default_response).
  pose (e1 := (IdempotencyMiddleware.process_resource test_middleware 200 request
                 POSTOnly e).2).
  pose (e2 := (IdempotencyMiddleware.handler test_middleware request e1).2).
  specialize (H test_middleware 200 request POSTOnly e e1 e2).
  apply (f_equal (λ r, length (calls r))) in H.
  - vm_compute in H. discriminate H.
  - vm_compute. exact eq_refl.
  - vm_compute. exact eq_refl.
Qed.

(** C4, amended: the post-handler phase writes to the cache exactly when
    the request carries a non-empty idempotency key, whether or not a
    cached response was replayed for it: it then stores the encoded
    response under the derived key with the configured TTL.  For a request
    whose key is absent or empty it performs no cache write and leaves the
    cache, and everything else, unchanged.  [IdempotencyMiddleware]
    inherits the phase as it is. *)
Theorem process_response_writes_iff_key {bytes : Type} `{!Pickle bytes}
    (self : Middleware) (now : Z) (request : Request) (e : Env bytes) :
  let key := get_header request idempotency_keyname in
  let out := SimpleIdempotencyMiddleware.process_response self now request e in
  (truthy key = false → out = (Ok tt, e))
  ∧ (truthy key = true → is_Some (redis_conn self) →
     ∀ value, dumps (response e) = Some value →
       out = (Ok tt,
              mkEnv (redis_setex now (redis_key (method request) key) value (_ttl self)
                       (redis e))
                (context e) (response e)))
  ∧ (redis out.2 ≠ redis e → truthy key = true)
  ∧ IdempotencyMiddleware.process_response self now request e = out.
Proof.
  cbn zeta. split; [|split; [|split]].
  - apply process_response_falsy.
  - intros Hk Hc value Hd. by apply process_response_store.
  - intros Hne. destruct (truthy _) eqn:Hk; [done|].
    rewrite process_response_falsy in Hne by done. done.
  - reflexivity.
Qed.

Example process_response_after_replay :
  let request := request_with "POST" (Some "ABCD") in
  let first :=
    dispatch vanilla_responder false (optin_hooks test_middleware) 100 request
      POSTOnly default_response fresh_world in
  let second :=
    dispatch vanilla_responder false (optin_hooks test_middleware) 200 request
      POSTOnly default_response first.2 in
  result_header "trans_id" first.1 = Some (transaction_id 0)
  ∧ result_header "trans_id" second.1 = Some (transaction_id 0)
  ∧ w_invocations second.2 = 1%nat
  ∧ snd <$> data (w_redis first.2) !! "FALCON_REQUEST_POST_ABCD" = Some 3700
  ∧ snd <$> data (w_redis second.2) !! "FALCON_REQUEST_POST_ABCD" = Some 3800
  ∧ length (calls (w_redis second.2)) = 4%nat.
Proof.
  cbv zeta. split; [|split; [|split; [|split; [|split]]]]; vm_compute; exact eq_refl.
Qed.

(** ** The opt-in scope policy *)

Lemma applies_true_iff m (resource : Resource) :
  applies m resource = true
  ↔ (m = "POST" ∧ resource !! "idempotent_post" = Some (VBool true))
    ∨ (m = "DELETE" ∧ resource !! "idempotent_delete" = Some (VBool true)).
Proof.
  unfold applies. rewrite orb_true_iff, !andb_true_iff, !String.eqb_eq.
  by rewrite !bool_decide_eq_true.
Qed.

Lemma is_True_getattr_default (resource : Resource) name :
  is_True (getattr_default resource name)
  = bool_decide (resource !! name = Some (VBool true)).
Proof.
  unfold getattr_default.
  destruct (resource !! name) as [[| [|] | | | |]|]; cbn;
    case_bool_decide; by simplify_eq.
Qed.

Lemma process_resource_applies {bytes : Type} `{!Pickle bytes}
    (self : Middleware) (now : Z) (request : Request) (resource : Resource) :
  IdempotencyMiddleware.process_resource self now request resource
  = if applies (method request) resource
    then SimpleIdempotencyMiddleware.process_request self now request
    else ret tt.
Proof.
  unfold IdempotencyMiddleware.process_resource, applies.
  rewrite !is_True_getattr_default.
  destruct (String.eqb (method request) "POST") eqn:Hpost;
    destruct (String.eqb (method request) "DELETE") eqn:Hdelete;
    destruct (bool_decide (resource !! "idempotent_post" = _));
    destruct (bool_decide (resource !! "idempotent_delete" = _)); done.
Qed.

(** C5: under the opt-in policy the pre-handler lookup phase is entered
    exactly when the method is POST and the resource's [idempotent_post]
    is [True], or the method is DELETE and its [idempotent_delete] is
    [True]; a request that carries a key then issues one cache read if the
    resource opted in and none otherwise.  For every other method, and for
    a flag that is absent or any other value, the request reaches the
    handler untouched: nothing is read, nothing is stashed, nothing is
    raised. *)
Theorem optin_scope {bytes : Type} `{!Pickle bytes}
    (self : Middleware) (now : Z) (request : Request) (resource : Resource)
    (e : Env bytes) :
  let key := get_header request idempotency_keyname in
  let opted :=
    (method request = "POST" ∧ resource !! "idempotent_post" = Some (VBool true))
    ∨ (method request = "DELETE" ∧ resource !! "idempotent_delete" = Some (VBool true)) in
  let out := IdempotencyMiddleware.process_resource self now request resource e in
  IdempotencyMiddleware.process_request self now request e = (Ok tt, e)
  ∧ (opted → out = SimpleIdempotencyMiddleware.process_request self now request e)
  ∧ (¬ opted → out = (Ok tt, e))
  ∧ (truthy key = true → is_Some (redis_conn self) →
     (calls (redis out.2)
      = (calls (redis e) ++ [GET (redis_key (method request) key)])%list ↔ opted)).
Proof.
  cbn zeta. rewrite process_resource_applies.
  pose proof (applies_true_iff (method request) resource) as Happ.
  split; [done|]. split; [|split].
  - intros Hopt. apply Happ in Hopt. by rewrite Hopt.
  - intros Hopt. destruct (applies _ _); [|done]. destruct Hopt. by apply Happ.
  - intros Hk [c Hc]. destruct (applies _ _).
    + split; [intros _; by apply Happ|intros _].
      unfold SimpleIdempotencyMiddleware.process_request. rewrite Hk.
      unfold bind, _BaseKlass.get_response_from_redis, conn_get, redis_get,
        context_setitem, ret, raise.
      rewrite Hc. cbn.
      destruct (do_expire _ _ !! _) as [[value expiry]|]; cbn; [|done].
      by destruct (loads value).
    + split; [|intros Hopt; apply Happ in Hopt; discriminate Hopt].
      cbn. intros Hcalls. exfalso.
      apply (f_equal length) in Hcalls. rewrite length_app in Hcalls. cbn in Hcalls. lia.
Qed.

Example truthy_flag_is_not_True :
  applies "POST" (<["idempotent_post" := VInt 1]> VanillaResource) = false
  ∧ applies "POST" (<["idempotent_post" := VStr "yes"]> VanillaResource) = false
  ∧ applies "POST" POSTOnly = true
  ∧ applies "DELETE" POSTOnly = false
  ∧ applies "DELETE" DELETEOnly = true
  ∧ applies "GET" (IdempotentPostMixin DELETEOnly) = false.
Proof. repeat split; vm_compute; exact eq_refl. Qed.

(** ** Encoding failures *)

(** C6, as stated, fails: nothing catches a failure of the encoding step.
    A POST with the key [ABCD] to a responder that streams its body runs
    the responder, and the error of [pickle.dumps] then leaves
    [process_response] and the dispatch; the caller gets the error, not
    the responder's response. *)
Lemma encoding_failure_propagates :
  let request := request_with "POST" (Some "ABCD") in
  let out := dispatch streaming_responder false (simple_hooks test_middleware) 100 request
               VanillaResource default_response fresh_world in
  dumps (streaming_responder request default_response 0%nat).1 = None
  ∧ out.1 = Raise PicklingError
  ∧ out.1 ≠ Ok (streaming_responder request default_response 0%nat).1
  ∧ w_invocations out.2 = 1%nat.
Proof.
  cbv zeta.
  assert ((dispatch streaming_responder false (simple_hooks test_middleware) 100
             (request_with "POST" (Some "ABCD")) VanillaResource default_response
             fresh_world).1 = Raise PicklingError) as Hraised
    by (vm_compute; exact eq_refl).
  split; [|split; [|split]].
  - vm_compute. exact eq_refl.
  - exact Hraised.
  - rewrite Hraised. discriminate.
  - vm_compute. exact eq_refl.
Qed.

(** C6, amended: when the encoding of the response fails, the error
    propagates out of the post-handler phase to its caller; nothing is
    stored, and the cache, the request context and the response object
    are left as they were. *)
Theorem encoding_failure_raises {bytes : Type} `{!Pickle bytes}
    (self : Middleware) (now : Z) (request : Request) (e : Env bytes) :
  truthy (get_header request idempotency_keyname) = true →
  is_Some (redis_conn self) →
  dumps (response e) = None →
  SimpleIdempotencyMiddleware.process_response self now request e
  = (Raise PicklingError, e).
Proof. apply process_response_pickling_error. Qed.

Lemma encoding_failure_raises_witness :
  let e := mkEnv empty_redis ∅ (<["stream" := VStream 3]> default_response) in
  SimpleIdempotencyMiddleware.process_response test_middleware 100
    (request_with "POST" (Some "ABCD")) e
  = (Raise PicklingError, e).
Proof.
  cbv zeta.
  apply (encoding_failure_raises test_middleware 100 (request_with "POST" (Some "ABCD"))
           (mkEnv empty_redis ∅ (<["stream" := VStream 3]> default_response))).
  - reflexivity.
  - by eexists.
  - vm_compute. exact eq_refl.
Defined.

(** ** The request context *)

Example replay_on_the_test_request :
  let request := request_with "POST" (Some "ABCD") in
  let stored :=
    (dispatch vanilla_responder false (simple_hooks test_middleware) 100 request
       VanillaResource default_response fresh_world).2.(w_redis) in
  let out := SimpleIdempotencyMiddleware.process_request test_middleware 200 request
               (mkEnv stored ∅ default_response) in
  let replayed := SimpleIdempotencyMiddleware.handler test_middleware request out.2 in
  out.1 = Raise SentinelException
  ∧ context out.2
    = {[Some "ABCD" := set_header "trans_id" (transaction_id 0) default_response]}
  ∧ replayed.1 = Ok tt
  ∧ context replayed.2 = ∅
  ∧ result_header "trans_id" (Ok (response replayed.2)) = Some (transaction_id 0).
Proof. cbv zeta. split; [|split; [|split; [|split]]]; vm_compute; exact eq_refl. Qed.

(** ** Requests without a key *)

Lemma truthy_false_iff (o : option string) :
  truthy o = false ↔ o = None ∨ o = Some "".
Proof.
  destruct o as [[|a s]|]; cbn; split; try done; auto.
  - intros [H|H]; discriminate H.
Qed.

(** C8: a request whose idempotency header is absent or empty always
    reaches the handler, under either middleware; the Redis connection
    receives no command for it, read or write, and the store is left as
    it was. *)
Theorem no_key_passthrough {bytes App : Type} `{!Pickle bytes}
    (responder : Request → Response → App → Response * App) (independent : bool)
    (self : Middleware) (now : Z) (request : Request) (resource : Resource)
    (resp0 : Response) (w : World bytes App) :
  get_header request idempotency_keyname = None
  ∨ get_header request idempotency_keyname = Some "" →
  let handled := responder request resp0 (w_app w) in
  let expected :=
    (Ok handled.1, mkWorld (w_redis w) handled.2 (S (w_invocations w))) in
  dispatch responder independent (simple_hooks self) now request resource resp0 w
  = expected
  ∧ dispatch responder independent (optin_hooks self) now request resource resp0 w
    = expected.
Proof.
  intros Hk. apply truthy_false_iff in Hk. cbn zeta. split.
  - by apply dispatch_simple_no_key.
  - by apply dispatch_optin_no_key.
Qed.

Lemma no_key_passthrough_witness :
  (dispatch vanilla_responder false (simple_hooks test_middleware) 100
     (request_with "POST" None) VanillaResource default_response fresh_world
   = (Ok (vanilla_responder (request_with "POST" None) default_response 0%nat).1,
      mkWorld empty_redis 1%nat 1%nat)
   ∧ dispatch vanilla_responder false (optin_hooks test_middleware) 100
       (request_with "POST" None) VanillaResource default_response fresh_world
     = (Ok (vanilla_responder (request_with "POST" None) default_response 0%nat).1,
        mkWorld empty_redis 1%nat 1%nat))
  ∧ (dispatch vanilla_responder false (simple_hooks test_middleware) 100
       (request_with "DELETE" (Some "")) POSTOnly default_response fresh_world
     = (Ok (vanilla_responder (request_with "DELETE" (Some "")) default_response 0%nat).1,
        mkWorld empty_redis 1%nat 1%nat)
     ∧ dispatch vanilla_responder false (optin_hooks test_middleware) 100
         (request_with "DELETE" (Some "")) POSTOnly default_response fresh_world
       = (Ok (vanilla_responder (request_with "DELETE" (Some "")) default_response 0%nat).1,
          mkWorld empty_redis 1%nat 1%nat)).
Proof.
  split.
  - apply (no_key_passthrough vanilla_responder false test_middleware 100
             (request_with "POST" None) VanillaResource default_response fresh_world).
    left. reflexivity.
  - apply (no_key_passthrough vanilla_responder false test_middleware 100
             (request_with "DELETE" (Some "")) POSTOnly default_response fresh_world).
    right. reflexivity.
Defined.

(** ** Construction and the errors of request handling *)

Lemma process_request_not_ValueError {bytes : Type} `{!Pickle bytes}
    (self : Middleware) (now : Z) (request : Request) (e : Env bytes) :
  (SimpleIdempotencyMiddleware.process_request self now request e).1 ≠ Raise ValueError.
Proof.
  pose proof (process_request_cases self now request e) as Hcases. cbn zeta in Hcases.
  intros E. rewrite E in Hcases.
  destruct Hcases as [(H & _)|[(_ & H & _)|[(H & _)|(H & _)]]]; discriminate H.
Qed.

Lemma process_response_not_ValueError {bytes : Type} `{!Pickle bytes}
    (self : Middleware) (now : Z) (request : Request) (e : Env bytes) :
  (SimpleIdempotencyMiddleware.process_response self now request e).1 ≠ Raise ValueError.
Proof.
  unfold SimpleIdempotencyMiddleware.process_response, bind, get_response,
    _BaseKlass.store_response_in_redis, conn_setex, ret, raise.
  destruct (truthy _); [|done].
  destruct (redis_conn self); [|done].
  by destruct (dumps _).
Qed.

Lemma handler_not_ValueError {bytes : Type} `{!Pickle bytes}
    (self : Middleware) (request : Request) (e : Env bytes) :
  (SimpleIdempotencyMiddleware.handler self request e).1 ≠ Raise ValueError.
Proof. rewrite handler_eq. by destruct (context e !! _). Qed.

(** C9: constructing the middleware raises the configuration error
    ([ValueError]) exactly when neither a connection nor a URL is
    supplied; when construction succeeds and no TTL is given the TTL is
    3600 seconds; and no phase of request handling, under either
    middleware, raises that error. *)
Theorem init_configuration_error (redis_url : option string)
    (redis_connection : option Conn) (idempotency_ttl : option Z) :
  (__init__ redis_url redis_connection idempotency_ttl = Raise ValueError
   ↔ redis_url = None ∧ redis_connection = None)
  ∧ (∀ ex, __init__ redis_url redis_connection idempotency_ttl = Raise ex → ex = ValueError)
  ∧ (∀ self, __init__ redis_url redis_connection None = Ok self → _ttl self = 3600)
  ∧ (∀ self ttl, __init__ redis_url redis_connection (Some ttl) = Ok self → _ttl self = ttl)
  ∧ (∀ (bytes : Type) (pickle : Pickle bytes) (self : Middleware) (now : Z)
       (request : Request) (resource : Resource) (e : Env bytes),
       (SimpleIdempotencyMiddleware.process_request self now request e).1 ≠ Raise ValueError
       ∧ (IdempotencyMiddleware.process_request self now request e).1 ≠ Raise ValueError
       ∧ (IdempotencyMiddleware.process_resource self now request resource e).1
         ≠ Raise ValueError
       ∧ (SimpleIdempotencyMiddleware.process_response self now request e).1
         ≠ Raise ValueError
       ∧ (IdempotencyMiddleware.process_response self now request e).1 ≠ Raise ValueError
       ∧ (SimpleIdempotencyMiddleware.handler self request e).1 ≠ Raise ValueError
       ∧ (IdempotencyMiddleware.handler self request e).1 ≠ Raise ValueError).
Proof.
  split; [|split; [|split; [|split]]].
  - unfold __init__. destruct redis_connection, redis_url; split; try done.
    + by intros [? ?].
    + by intros [? ?].
    + by intros [? ?].
  - unfold __init__. intros ex. destruct redis_connection, redis_url; intros E; by simplify_eq.
  - intros self E. apply init_ok in E as [-> _]. reflexivity.
  - intros self ttl E. apply init_ok in E as [-> _]. reflexivity.
  - intros bytes pickle self now request resource e.
    repeat split.
    + apply process_request_not_ValueError.
    + done.
    + rewrite process_resource_applies. destruct (applies _ _); [|done].
      apply process_request_not_ValueError.
    + apply process_response_not_ValueError.
    + apply process_response_not_ValueError.
    + apply handler_not_ValueError.
    + apply handler_not_ValueError.
Qed.

Example init_of_the_test_suite :
  __init__ None (Some (Supplied "mock")) (Some 3600) = Ok test_middleware
  ∧ __init__ None None (Some 3600) = Raise ValueError
  ∧ __init__ (Some "redis://localhost") None None
    = Ok (mkMiddleware (Some "redis://localhost") None 3600).
Proof. repeat split. Qed.

(** ** The replay handler *)


Example handler_without_stash :
  SimpleIdempotencyMiddleware.handler test_middleware (request_with "POST" (Some "ABCD"))
    (mkEnv empty_redis ∅ default_response)
  = (Raise KeyError, mkEnv empty_redis ∅ default_response)
  ∧ SimpleIdempotencyMiddleware.handler test_middleware (request_with "POST" None)
      (mkEnv empty_redis ∅ default_response)
    = (Raise KeyError, mkEnv empty_redis ∅ default_response).
Proof. split; vm_compute; exact eq_refl. Qed.

(** ** The scenarios of the test suite *)

(** [test_unrelated_requests]: two requests with different keys each run
    the responder and get their own transaction. *)
Example unrelated_requests :
  let first :=
    dispatch vanilla_responder false (simple_hooks test_middleware) 100
      (request_with "POST" (Some "ABCD")) VanillaResource default_response fresh_world in
  let second :=
    dispatch vanilla_responder false (simple_hooks test_middleware) 200
      (request_with "POST" (Some "DEFG")) VanillaResource default_response first.2 in
  first.1 = Ok (set_header "trans_id" (transaction_id 0) default_response)
  ∧ second.1 = Ok (set_header "trans_id" (transaction_id 1) default_response)
  ∧ w_invocations second.2 = 2%nat.
Proof. cbv zeta. split; [|split]; vm_compute; exact eq_refl. Qed.

(** The same key under another method is another cache key. *)
Example same_key_other_method :
  let first :=
    dispatch vanilla_responder false (simple_hooks test_middleware) 100
      (request_with "POST" (Some "ABCD")) VanillaResource default_response fresh_world in
  let second :=
    dispatch vanilla_responder false (simple_hooks test_middleware) 200
      (request_with "DELETE" (Some "ABCD")) VanillaResource default_response first.2 in
  second.1 = Ok (set_header "trans_id" (transaction_id 1) default_response)
  ∧ w_invocations second.2 = 2%nat.
Proof. cbv zeta. split; vm_compute; exact eq_refl. Qed.

(** A request repeated once the TTL has elapsed runs the responder
    again; at the very time the entry expires it is still answered from
    the cache. *)
Example repeated_after_expiry :
  let first :=
    dispatch vanilla_responder false (simple_hooks test_middleware) 100
      (request_with "POST" (Some "ABCD")) VanillaResource default_response fresh_world in
  let at_expiry :=
    dispatch vanilla_responder false (simple_hooks test_middleware) 3700
      (request_with "POST" (Some "ABCD")) VanillaResource default_response first.2 in
  let second :=
    dispatch vanilla_responder false (simple_hooks test_middleware) 3701
      (request_with "POST" (Some "ABCD")) VanillaResource default_response first.2 in
  w_invocations at_expiry.2 = 1%nat
  ∧ second.1 = Ok (set_header "trans_id" (transaction_id 1) default_response)
  ∧ w_invocations second.2 = 2%nat.
Proof. cbv zeta. split; [|split]; vm_compute; exact eq_refl. Qed.

(** [test_deletes_are_not_idempotent]: a resource that opted in for POST
    only runs the responder for every DELETE, whatever the key. *)
Example deletes_are_not_idempotent :
  let first :=
    dispatch vanilla_responder false (optin_hooks test_middleware) 100
      (request_with "DELETE" (Some "ABCD")) POSTOnly default_response fresh_world in
  let second :=
    dispatch vanilla_responder false (optin_hooks test_middleware) 200
      (request_with "DELETE" (Some "ABCD")) POSTOnly default_response first.2 in
  second.1 = Ok (set_header "trans_id" (transaction_id 1) default_response)
  ∧ w_invocations second.2 = 2%nat.
Proof. cbv zeta. split; vm_compute; exact eq_refl. Qed.

(** [test_deletes_are_idempotent] *)
Example deletes_are_idempotent :
  let first :=
    dispatch vanilla_responder false (optin_hooks test_middleware) 100
      (request_with "DELETE" (Some "ABCD")) DELETEOnly default_response fresh_world in
  let second :=
    dispatch vanilla_responder false (optin_hooks test_middleware) 200
      (request_with "DELETE" (Some "ABCD")) DELETEOnly default_response first.2 in
  result_header "trans_id" first.1 = Some (transaction_id 0)
  ∧ result_header "trans_id" second.1 = Some (transaction_id 0)
  ∧ w_invocations second.2 = 1%nat.
Proof. cbv zeta. split; [|split]; vm_compute; exact eq_refl. Qed.

(** The commands Redis receives for a POST with a key, from a resource
    that opted in and from one that did not. *)
Example optin_lookup_commands :
  calls (IdempotencyMiddleware.process_resource test_middleware 100
           (request_with "POST" (Some "ABCD")) POSTOnly
           (mkEnv empty_redis ∅ default_response)).2.(redis)
  = [GET "FALCON_REQUEST_POST_ABCD"]
  ∧ calls (IdempotencyMiddleware.process_resource test_middleware 100
             (request_with "POST" (Some "ABCD")) DELETEOnly
             (mkEnv empty_redis ∅ default_response)).2.(redis)
    = [].
Proof. split; vm_compute; exact eq_refl. Qed.

(** * More of the middleware *)

(** ** Requests through the host, under [IdempotencyMiddleware] *)

Section OptinHostProperties.
Context {bytes App : Type} `{!Pickle bytes}.
Variable responder : Request → Response → App → Response * App.
Implicit Types (self : Middleware) (request : Request) (w : World bytes App).

(** A request to a resource that opted in, finding a live entry. *)
Lemma dispatch_optin_replay independent self now request resource resp0 w
    value expiry (prev : Response) value' :
  let key := get_header request idempotency_keyname in
  let rk := redis_key (method request) key in
  applies (method request) resource = true →
  truthy key = true → is_Some (redis_conn self) →
  data (w_redis w) !! rk = Some (value, expiry) → now ≤ expiry →
  loads value = Some prev → dumps (prev ∪ resp0) = Some value' →
  dispatch responder independent (optin_hooks self) now request resource resp0 w
  = (Ok (prev ∪ resp0),
     mkWorld (redis_setex now rk value' (_ttl self) (redis_get now rk (w_redis w)).2)
       (w_app w) (w_invocations w)).
Proof.
  intros key rk Happ Hk Hc Hd Hlt Hl Hd'. unfold dispatch, optin_hooks.
  cbn [h_process_request h_process_resource h_process_response h_handler].
  unfold IdempotencyMiddleware.process_request, ret at 1.
  rewrite process_resource_applies, Happ.
  rewrite (process_request_hit _ _ _ value expiry prev) by done.
  cbn [handle_exception h_handler]. unfold IdempotencyMiddleware.handler.
  rewrite handler_eq. cbn [context].
  rewrite lookup_insert_eq. cbn [redis context response].
  unfold IdempotencyMiddleware.process_response.
  by rewrite (process_response_store _ _ _ value') by done.
Qed.

(** A request to a resource that did not opt in: no lookup, the responder
    runs, and the response is stored all the same. *)
Lemma dispatch_optin_not_applied independent self now request resource resp0 w value :
  let key := get_header request idempotency_keyname in
  let rk := redis_key (method request) key in
  let handled := responder request resp0 (w_app w) in
  applies (method request) resource = false →
  truthy key = true → is_Some (redis_conn self) →
  dumps handled.1 = Some value →
  dispatch responder independent (optin_hooks self) now request resource resp0 w
  = (Ok handled.1,
     mkWorld (redis_setex now rk value (_ttl self) (w_redis w))
       handled.2 (S (w_invocations w))).
Proof.
  intros key rk handled Happ Hk Hc Hd. unfold dispatch, optin_hooks.
  cbn [h_process_request h_process_resource h_process_response h_handler].
  unfold IdempotencyMiddleware.process_request, ret at 1.
  rewrite process_resource_applies, Happ. unfold ret at 1. cbn [response redis context].
  subst handled. destruct (responder request resp0 (w_app w)) as [resp app].
  cbn [fst snd] in *. unfold IdempotencyMiddleware.process_response.
  by rewrite (process_response_store _ _ _ value) by done.
Qed.

(** Whatever the cache holds, a request to a resource that did not opt in
    runs the responder. *)
Lemma dispatch_optin_not_applied_runs independent self now request resource resp0 w :
  applies (method request) resource = false →
  let out := dispatch responder independent (optin_hooks self) now request resource
               resp0 w in
  w_invocations out.2 = S (w_invocations w)
  ∧ w_app out.2 = (responder request resp0 (w_app w)).2.
Proof.
  intros Happ. cbn zeta. unfold dispatch, optin_hooks.
  cbn [h_process_request h_process_resource h_process_response h_handler].
  unfold IdempotencyMiddleware.process_request, ret.
  rewrite process_resource_applies, Happ. unfold ret. cbn [response redis context].
  destruct (responder request resp0 (w_app w)) as [resp app].
  by destruct (IdempotencyMiddleware.process_response _ _ _ _) as [r2 env2].
Qed.

(** A request with a key whose responder ran and whose dispatch returned
    normally has left its response in the store, whether or not the
    resource opted in. *)
Lemma dispatch_optin_stored independent self now request resource resp0 w
    (r : Response) w' :
  let key := get_header request idempotency_keyname in
  truthy key = true → is_Some (redis_conn self) →
  dispatch responder independent (optin_hooks self) now request resource resp0 w
  = (Ok r, w') →
  w_invocations w' = S (w_invocations w) →
  r = (responder request resp0 (w_app w)).1
  ∧ ∃ value, dumps r = Some value
      ∧ data (w_redis w') !! redis_key (method request) key = Some (value, now + _ttl self).
Proof.
  intros key Hk Hc. unfold dispatch, optin_hooks.
  cbn [h_process_request h_process_resource h_process_response h_handler].
  unfold IdempotencyMiddleware.process_request, ret at 1.
  rewrite process_resource_applies. unfold IdempotencyMiddleware.process_response.
  destruct (applies _ _).
  - pose proof (process_request_cases self now request
                  (mkEnv (w_redis w) (req_context request) resp0)) as Hcases.
    cbn zeta in Hcases.
    destruct (SimpleIdempotencyMiddleware.process_request _ _ _ _) as [[[]|ex] env1].
    + assert (response env1 = resp0) as Hresp.
      { cbn in Hcases.
        destruct Hcases as [(_ & _ & H)|[(_ & H & _)|[(H & _)|(H & _)]]];
          [exact H|discriminate H..]. }
      rewrite Hresp. destruct (responder request resp0 (w_app w)) as [resp app].
      destruct (dumps resp) as [value|] eqn:Hd.
      * rewrite (process_response_store _ _ _ value) by done.
        intros E _. simplify_eq. cbn. split; [done|].
        exists value. split; [done|]. by rewrite lookup_insert_eq.
      * rewrite process_response_pickling_error by done. intros E. by simplify_eq.
    + destruct (handle_exception _ _ _ _) as [r1 env2].
      destruct (SimpleIdempotencyMiddleware.process_response _ _ _ _) as [r2 env3].
      intros E Hn. simplify_eq. cbn in Hn. lia.
  - unfold ret at 1. cbn [response redis context].
    destruct (responder request resp0 (w_app w)) as [resp app].
    destruct (dumps resp) as [value|] eqn:Hd.
    + rewrite (process_response_store _ _ _ value) by done.
      intros E _. simplify_eq. cbn. split; [done|].
      exists value. split; [done|]. by rewrite lookup_insert_eq.
    + rewrite process_response_pickling_error by done. intros E. by simplify_eq.
Qed.
End OptinHostProperties.

(** ** Replay under [IdempotencyMiddleware] *)

(** X1: under [IdempotencyMiddleware], once a request with a key ran a
    responder and returned normally, whether or not its resource opted
    in, a later request with the same method and key to a resource that
    opted in for the method, before the TTL elapses, takes the replay
    path: [process_resource] raises the sentinel with that first
    response, as decoded from the cache, stashed under the key, and the
    request's own responder does not run, even when it is another
    resource's. *)
Theorem optin_replay_within_ttl {bytes App : Type} `{!Pickle bytes}
    (responder1 responder2 : Request → Response → App → Response * App)
    (independent : bool) (self : Middleware) (now1 now2 : Z)
    (request1 request2 : Request) (resource1 resource2 : Resource)
    (resp1 resp2 r1 : Response) (w0 w1 : World bytes App) :
  truthy (get_header request1 idempotency_keyname) = true →
  is_Some (redis_conn self) →
  0 < _ttl self →
  get_header request2 idempotency_keyname = get_header request1 idempotency_keyname →
  method request2 = method request1 →
  applies (method request2) resource2 = true →
  dispatch responder1 independent (optin_hooks self) now1 request1 resource1 resp1 w0
  = (Ok r1, w1) →
  w_invocations w1 = S (w_invocations w0) →
  now2 < now1 + _ttl self →
  let key := get_header request2 idempotency_keyname in
  let out := dispatch responder2 independent (optin_hooks self) now2 request2 resource2
               resp2 w1 in
  IdempotencyMiddleware.process_resource self now2 request2 resource2
    (mkEnv (w_redis w1) (req_context request2) resp2)
  = (Raise SentinelException,
     mkEnv (redis_get now2 (redis_key (method request2) key) (w_redis w1)).2
       (<[key := r1]> (req_context request2)) resp2)
  ∧ w_invocations out.2 = w_invocations w1
  ∧ w_app out.2 = w_app w1.
Proof.
  intros Hk Hc Httl Hkey Hm Happ Hfirst Hran Hlt. cbn zeta.
  destruct (dispatch_optin_stored responder1 independent self now1 request1 resource1
              resp1 w0 r1 w1 Hk Hc Hfirst Hran) as (_ & value & Hd & Hstored).
  assert (IdempotencyMiddleware.process_resource self now2 request2 resource2
            (mkEnv (w_redis w1) (req_context request2) resp2)
          = (Raise SentinelException,
             mkEnv
               (redis_get now2
                  (redis_key (method request2) (get_header request2 idempotency_keyname))
                  (w_redis w1)).2
               (<[get_header request2 idempotency_keyname := r1]> (req_context request2))
               resp2)) as Hres.
  { rewrite process_resource_applies, Happ.
    rewrite (process_request_hit self now2 request2 value (now1 + _ttl self) r1).
    - done.
    - by rewrite Hkey.
    - done.
    - by rewrite Hkey, Hm.
    - lia.
    - by eapply loads_dumps. }
  split; [exact Hres|].
  by apply (dispatch_raised_in_resource responder2 independent (optin_hooks self) now2
              request2 resource2 resp2 w1 _ _ _ eq_refl Hres).
Qed.

Lemma optin_replay_within_ttl_witness :
  let request := request_with "DELETE" (Some "ABCD") in
  let w1 := (dispatch body_responder false (optin_hooks test_middleware) 100 request
               POSTOnly default_response fresh_world).2 in
  let out := dispatch vanilla_responder false (optin_hooks test_middleware) 200 request
               DELETEOnly default_response w1 in
  IdempotencyMiddleware.process_resource test_middleware 200 request DELETEOnly
    (mkEnv (w_redis w1) (req_context request) default_response)
  = (Raise SentinelException,
     mkEnv (redis_get 200 "FALCON_REQUEST_DELETE_ABCD" (w_redis w1)).2
       {[Some "ABCD" := <["body" := VStr "done"]> default_response]} default_response)
  ∧ w_invocations out.2 = 1%nat
  ∧ w_app out.2 = 1%nat.
Proof.
  cbv zeta.
  destruct (optin_replay_within_ttl body_responder vanilla_responder false
              test_middleware 100 200
              (request_with "DELETE" (Some "ABCD")) (request_with "DELETE" (Some "ABCD"))
              POSTOnly DELETEOnly default_response default_response
              (<["body" := VStr "done"]> default_response)
              fresh_world
              (dispatch body_responder false (optin_hooks test_middleware) 100
                 (request_with "DELETE" (Some "ABCD")) POSTOnly default_response
                 fresh_world).2) as (Hres & Hcount & Happ).
  - vm_compute. exact eq_refl.
  - by eexists.
  - vm_compute. exact eq_refl.
  - vm_compute. exact eq_refl.
  - vm_compute. exact eq_refl.
  - vm_compute. exact eq_refl.
  - vm_compute. exact eq_refl.
  - vm_compute. exact eq_refl.
  - vm_compute. exact eq_refl.
  - split; [|split].
    + rewrite Hres. vm_compute. exact eq_refl.
    + rewrite Hcount. vm_compute. exact eq_refl.
    + rewrite Happ. vm_compute. exact eq_refl.
Defined.

(** X17: the same under [SimpleIdempotencyMiddleware].  Once a request
    with a key ran the responder and returned normally, a later request
    with the same method and key, before the TTL elapses, takes the
    replay path: [process_request] raises the sentinel with that first
    response, as decoded from the cache, stashed under the key, and the
    responder does not run for it: the invocation count and the
    application state stay as the first request left them. *)
Theorem replayed_request_skips_responder {bytes App : Type} `{!Pickle bytes}
    (responder : Request → Response → App → Response * App) (independent : bool)
    (self : Middleware) (now1 now2 : Z) (request1 request2 : Request)
    (resource1 resource2 : Resource) (resp1 resp2 r1 : Response)
    (w0 w1 : World bytes App) :
  truthy (get_header request1 idempotency_keyname) = true →
  is_Some (redis_conn self) →
  0 < _ttl self →
  get_header request2 idempotency_keyname = get_header request1 idempotency_keyname →
  method request2 = method request1 →
  dispatch responder independent (simple_hooks self) now1 request1 resource1 resp1 w0
  = (Ok r1, w1) →
  w_invocations w1 = S (w_invocations w0) →
  now2 < now1 + _ttl self →
  let key := get_header request2 idempotency_keyname in
  let out := dispatch responder independent (simple_hooks self) now2 request2 resource2
               resp2 w1 in
  SimpleIdempotencyMiddleware.process_request self now2 request2
    (mkEnv (w_redis w1) (req_context request2) resp2)
  = (Raise SentinelException,
     mkEnv (redis_get now2 (redis_key (method request2) key) (w_redis w1)).2
       (<[key := r1]> (req_context request2)) resp2)
  ∧ w_invocations out.2 = w_invocations w1
  ∧ w_app out.2 = w_app w1.
Proof.
  intros Hk Hc Httl Hkey Hm Hfirst Hran Hlt. cbn zeta.
  destruct (dispatch_simple_stored responder independent self now1 request1 resource1
              resp1 w0 r1 w1 Hk Hc Hfirst Hran) as (_ & value & Hd & Hstored).
  assert (SimpleIdempotencyMiddleware.process_request self now2 request2
            (mkEnv (w_redis w1) (req_context request2) resp2)
          = (Raise SentinelException,
             mkEnv
               (redis_get now2
                  (redis_key (method request2) (get_header request2 idempotency_keyname))
                  (w_redis w1)).2
               (<[get_header request2 idempotency_keyname := r1]> (req_context request2))
               resp2)) as Hreq.
  { rewrite (process_request_hit self now2 request2 value (now1 + _ttl self) r1).
    - done.
    - by rewrite Hkey.
    - done.
    - by rewrite Hkey, Hm.
    - lia.
    - by eapply loads_dumps. }
  split; [exact Hreq|].
  by apply (dispatch_raised_in_request responder independent (simple_hooks self) now2
              request2 resource2 resp2 w1 _ _ Hreq).
Qed.

Lemma replayed_request_skips_responder_witness :
  let request := request_with "POST" (Some "ABCD") in
  let w1 := (dispatch vanilla_responder false (simple_hooks test_middleware) 100 request
               VanillaResource default_response fresh_world).2 in
  let out := dispatch vanilla_responder false (simple_hooks test_middleware) 200 request
               VanillaResource default_response w1 in
  SimpleIdempotencyMiddleware.process_request test_middleware 200 request
    (mkEnv (w_redis w1) (req_context request) default_response)
  = (Raise SentinelException,
     mkEnv (redis_get 200 "FALCON_REQUEST_POST_ABCD" (w_redis w1)).2
       {[Some "ABCD" := set_header "trans_id" (transaction_id 0) default_response]}
       default_response)
  ∧ w_invocations out.2 = 1%nat
  ∧ w_app out.2 = 1%nat.
Proof.
  cbv zeta.
  destruct (replayed_request_skips_responder vanilla_responder false test_middleware
              100 200
              (request_with "POST" (Some "ABCD")) (request_with "POST" (Some "ABCD"))
              VanillaResource VanillaResource default_response default_response
              (set_header "trans_id" (transaction_id 0) default_response)
              fresh_world
              (dispatch vanilla_responder false (simple_hooks test_middleware) 100
                 (request_with "POST" (Some "ABCD")) VanillaResource default_response
                 fresh_world).2) as (Hreq & Hcount & Happ).
  - vm_compute. exact eq_refl.
  - by eexists.
  - vm_compute. exact eq_refl.
  - vm_compute. exact eq_refl.
  - vm_compute. exact eq_refl.
  - vm_compute. exact eq_refl.
  - vm_compute. exact eq_refl.
  - vm_compute. exact eq_refl.
  - split; [|split].
    + rewrite Hreq. vm_compute. exact eq_refl.
    + rewrite Hcount. vm_compute. exact eq_refl.
    + rewrite Happ. vm_compute. exact eq_refl.
Defined.

(** X2: under [IdempotencyMiddleware], a request to a resource that did
    not opt in for its method runs the responder every time, whatever
    the cache holds under its key; no cache read is made for it, but when
    it carries a key its response is stored under the derived key with
    the configured TTL all the same. *)
Theorem optin_not_applied_runs_and_stores {bytes App : Type} `{!Pickle bytes}
    (responder : Request → Response → App → Response * App)
    (independent : bool) (self : Middleware) (now : Z) (request : Request)
    (resource : Resource) (resp0 : Response) (w : World bytes App) :
  applies (method request) resource = false →
  let key := get_header request idempotency_keyname in
  let handled := responder request resp0 (w_app w) in
  let out := dispatch responder independent (optin_hooks self) now request resource
               resp0 w in
  w_invocations out.2 = S (w_invocations w)
  ∧ w_app out.2 = handled.2
  ∧ (truthy key = true → is_Some (redis_conn self) →
     ∀ value, dumps handled.1 = Some value →
       out = (Ok handled.1,
              mkWorld (redis_setex now (redis_key (method request) key) value (_ttl self)
                         (w_redis w))
                handled.2 (S (w_invocations w)))).
Proof.
  intros Happ. cbn zeta.
  destruct (dispatch_optin_not_applied_runs responder independent self now request
              resource resp0 w Happ) as [Hn Ha].
  split; [exact Hn|]. split; [exact Ha|].
  intros Hk Hc value Hd. by apply dispatch_optin_not_applied.
Qed.

Lemma optin_not_applied_runs_and_stores_witness :
  let request := request_with "DELETE" (Some "ABCD") in
  let w := (dispatch vanilla_responder false (optin_hooks test_middleware) 100 request
              POSTOnly default_response fresh_world).2 in
  let out := dispatch vanilla_responder false (optin_hooks test_middleware) 200 request
               POSTOnly default_response w in
  snd <$> data (w_redis w) !! "FALCON_REQUEST_DELETE_ABCD" = Some 3700
  ∧ w_invocations out.2 = 2%nat
  ∧ out.1 = Ok (set_header "trans_id" (transaction_id 1) default_response)
  ∧ snd <$> data (w_redis out.2) !! "FALCON_REQUEST_DELETE_ABCD" = Some 3800.
Proof.
  cbv zeta.
  pose proof (optin_not_applied_runs_and_stores vanilla_responder false test_middleware
                200 (request_with "DELETE" (Some "ABCD")) POSTOnly default_response
                (dispatch vanilla_responder false (optin_hooks test_middleware) 100
                   (request_with "DELETE" (Some "ABCD")) POSTOnly default_response
                   fresh_world).2 eq_refl) as (Hn & _ & Hstore).
  cbv zeta in Hstore.
  split; [vm_compute; exact eq_refl|].
  split; [rewrite Hn; vm_compute; exact eq_refl|].
  destruct (dumps (vanilla_responder (request_with "DELETE" (Some "ABCD"))
                     default_response 1%nat).1) as [value|] eqn:Hd;
    [|vm_compute in Hd; discriminate Hd].
  assert (is_Some (redis_conn test_middleware)) as Hc by (by eexists).
  rewrite (Hstore eq_refl Hc value).
  - split; [vm_compute; exact eq_refl|].
    cbn [snd w_redis]. unfold redis_setex. cbn [data].
    by rewrite lookup_insert_eq.
  - exact Hd.
Defined.

(** ** Expiry *)

(** X3: under [SimpleIdempotencyMiddleware], when a first request with a
    key ran the responder and its response was stored, a request with the
    same method and key that arrives later than the store time plus the
    TTL is a fresh request: the responder runs again and the caller gets
    what it produces now. *)
Theorem repeated_after_ttl_reruns {bytes App : Type} `{!Pickle bytes}
    (responder : Request → Response → App → Response * App)
    (independent : bool) (self : Middleware) (now1 now2 : Z)
    (request1 request2 : Request) (resource1 resource2 : Resource)
    (resp1 resp2 r1 : Response) (w0 w1 : World bytes App) :
  truthy (get_header request1 idempotency_keyname) = true →
  is_Some (redis_conn self) →
  0 < _ttl self →
  get_header request2 idempotency_keyname = get_header request1 idempotency_keyname →
  method request2 = method request1 →
  dispatch responder independent (simple_hooks self) now1 request1 resource1 resp1 w0
  = (Ok r1, w1) →
  w_invocations w1 = S (w_invocations w0) →
  now1 + _ttl self < now2 →
  is_Some (dumps (responder request2 resp2 (w_app w1)).1) →
  let out := dispatch responder independent (simple_hooks self) now2 request2 resource2
               resp2 w1 in
  out.1 = Ok (responder request2 resp2 (w_app w1)).1
  ∧ w_invocations out.2 = S (w_invocations w1)
  ∧ w_app out.2 = (responder request2 resp2 (w_app w1)).2.
Proof.
  intros Hk Hc Httl Hkey Hm Hfirst Hran Hlt [value Hd]. cbn zeta.
  destruct (dispatch_simple_stored responder independent self now1 request1 resource1
              resp1 w0 r1 w1 Hk Hc Hfirst Hran) as (_ & old & _ & Hstored).
  rewrite (dispatch_simple_miss responder independent self now2 request2 resource2
             resp2 w1 value); [done|by rewrite Hkey|done| |done].
  rewrite Hkey, Hm. by eapply do_expire_lookup_expired.
Qed.

Lemma repeated_after_ttl_reruns_witness :
  let request := request_with "POST" (Some "ABCD") in
  let w1 := (dispatch vanilla_responder false (simple_hooks test_middleware) 100 request
               VanillaResource default_response fresh_world).2 in
  let out := dispatch vanilla_responder false (simple_hooks test_middleware) 3701 request
               VanillaResource default_response w1 in
  out.1 = Ok (vanilla_responder request default_response (w_app w1)).1
  ∧ w_invocations out.2 = S (w_invocations w1)
  ∧ w_app out.2 = (vanilla_responder request default_response (w_app w1)).2.
Proof.
  cbv zeta.
  apply (repeated_after_ttl_reruns vanilla_responder false test_middleware 100 3701
           (request_with "POST" (Some "ABCD")) (request_with "POST" (Some "ABCD"))
           VanillaResource VanillaResource default_response default_response
           (set_header "trans_id" (transaction_id 0) default_response)
           fresh_world).
  - vm_compute. exact eq_refl.
  - by eexists.
  - vm_compute. exact eq_refl.
  - exact eq_refl.
  - exact eq_refl.
  - vm_compute. exact eq_refl.
  - vm_compute. exact eq_refl.
  - vm_compute. exact eq_refl.
  - vm_compute. by eexists.
Defined.

(** ** What each phase leaves alone *)

(** X4: the pre-handler phase never writes.  It leaves the response as it
    was, touches no context entry but the one under the request's header
    value, sends Redis at most one command, a read of the derived key,
    and every entry the store holds afterwards it held before, with the
    same value and expiry. *)
Theorem process_request_never_writes {bytes : Type} `{!Pickle bytes}
    (self : Middleware) (now : Z) (request : Request) (e : Env bytes) :
  let key := get_header request idempotency_keyname in
  let out := SimpleIdempotencyMiddleware.process_request self now request e in
  response out.2 = response e
  ∧ (∀ k, k ≠ key → context out.2 !! k = context e !! k)
  ∧ (calls (redis out.2) = calls (redis e)
     ∨ calls (redis out.2)
       = (calls (redis e) ++ [GET (redis_key (method request) key)])%list)
  ∧ (∀ k entry, data (redis out.2) !! k = Some entry → data (redis e) !! k = Some entry).
Proof.
  cbn zeta. unfold SimpleIdempotencyMiddleware.process_request.
  destruct (truthy _) eqn:Hk; [|by repeat split; auto].
  unfold bind, _BaseKlass.get_response_from_redis, conn_get, redis_get,
    context_setitem, ret, raise.
  destruct (redis_conn self) as [c|]; [|by repeat split; auto].
  assert (∀ k entry, do_expire now (data (redis e)) !! k = Some entry
                     → data (redis e) !! k = Some entry) as Hexp.
  { intros k entry Hl. unfold do_expire in Hl.
    by apply map_lookup_filter_Some in Hl as [Hl _]. }
  cbn. destruct (do_expire _ _ !! _) as [[value expiry]|]; cbn.
  - destruct (loads value) as [prev|]; cbn.
    + repeat split; auto. intros k Hne. by rewrite lookup_insert_ne.
    + repeat split; auto.
  - repeat split; auto.
Qed.

(** X5: the post-handler phase leaves the request context and the
    response as they were, sends Redis at most one command, a [SETEX] of
    the derived key with the configured TTL, and changes no entry of the
    store under any other key. *)
Theorem process_response_touches_one_key {bytes : Type} `{!Pickle bytes}
    (self : Middleware) (now : Z) (request : Request) (e : Env bytes) :
  let rk := redis_key (method request) (get_header request idempotency_keyname) in
  let out := SimpleIdempotencyMiddleware.process_response self now request e in
  context out.2 = context e
  ∧ response out.2 = response e
  ∧ (redis out.2 = redis e
     ∨ ∃ value, dumps (response e) = Some value
         ∧ out.1 = Ok tt
         ∧ calls (redis out.2) = (calls (redis e) ++ [SETEX rk value (_ttl self)])%list
         ∧ data (redis out.2) !! rk = Some (value, now + _ttl self))
  ∧ (∀ k, k ≠ rk → data (redis out.2) !! k = data (redis e) !! k).
Proof.
  cbn zeta. unfold SimpleIdempotencyMiddleware.process_response, bind, get_response,
    _BaseKlass.store_response_in_redis, conn_setex, redis_setex, ret, raise.
  destruct (truthy _); [|by repeat split; auto].
  destruct (redis_conn self); [|by repeat split; auto].
  destruct (dumps (response e)) as [value|] eqn:Hd; [|by repeat split; auto].
  cbn. split; [done|]. split; [done|]. split.
  - right. exists value. split; [done|]. split; [done|]. split; [done|].
    by rewrite lookup_insert_eq.
  - intros k Hne. by rewrite lookup_insert_ne.
Qed.

(** ** Key isolation *)

Lemma append_inv_head (p s1 s2 : string) : p +:+ s1 = p +:+ s2 → s1 = s2.
Proof. induction p as [|a p IH]; cbn; intros E; [done|]. apply IH. by simplify_eq. Qed.

Lemma redis_key_same_method_inj m (h1 h2 : string) :
  redis_key m (Some h1) = redis_key m (Some h2) → h1 = h2.
Proof.
  intros E. apply redis_key_prefix_inj in E. cbn [py_str] in E.
  apply append_inv_head in E. by simplify_eq.
Qed.

Lemma truthy_Some (o : option string) : truthy o = true → ∃ h, o = Some h.
Proof. destruct o as [h|]; [by exists h|done]. Qed.

Section OtherKeys.
Context {bytes App : Type} `{!Pickle bytes}.
Variable responder : Request → Response → App → Response * App.
Implicit Types (self : Middleware) (request : Request) (e : Env bytes).

Lemma process_request_keeps_absent self now request e k :
  data (redis e) !! k = None →
  data (redis (SimpleIdempotencyMiddleware.process_request self now request e).2) !! k
  = None.
Proof.
  intros Hk. unfold SimpleIdempotencyMiddleware.process_request.
  destruct (truthy _); [|done].
  unfold bind, _BaseKlass.get_response_from_redis, conn_get, redis_get,
    context_setitem, ret, raise.
  destruct (redis_conn self) as [c|]; [|done].
  pose proof (do_expire_lookup_None now _ _ Hk) as Hexp.
  cbn. destruct (do_expire _ _ !! redis_key _ _) as [[value expiry]|]; cbn; [|done].
  by destruct (loads value).
Qed.

Lemma process_response_keeps_absent self now request e k :
  k ≠ redis_key (method request) (get_header request idempotency_keyname) →
  data (redis e) !! k = None →
  data (redis (SimpleIdempotencyMiddleware.process_response self now request e).2) !! k
  = None.
Proof.
  intros Hne Hk.
  unfold SimpleIdempotencyMiddleware.process_response, bind, get_response,
    _BaseKlass.store_response_in_redis, conn_setex, redis_setex, ret, raise.
  destruct (truthy _); [|done].
  destruct (redis_conn self); [|done].
  destruct (dumps (response e)); [|done].
  cbn. by rewrite lookup_insert_ne.
Qed.

Lemma handle_exception_keeps_redis self request ex e :
  redis (handle_exception (simple_hooks self) request ex e).2 = redis e.
Proof.
  destruct ex; try done. cbn [handle_exception simple_hooks h_handler].
  rewrite handler_eq. by destruct (context e !! _).
Qed.

(** A request through the host creates no entry under a key that is not
    its own. *)
Lemma dispatch_simple_keeps_absent independent self now request resource resp0
    (w : World bytes App) k :
  k ≠ redis_key (method request) (get_header request idempotency_keyname) →
  data (w_redis w) !! k = None →
  data (w_redis
          (dispatch responder independent (simple_hooks self) now request resource
             resp0 w).2) !! k = None.
Proof.
  intros Hne Hk. unfold dispatch.
  cbn [simple_hooks h_process_request h_process_resource h_process_response].
  pose proof (process_request_keeps_absent self now request
                (mkEnv (w_redis w) (req_context request) resp0) k Hk) as Hreq.
  destruct (SimpleIdempotencyMiddleware.process_request _ _ _ _) as [[[]|ex] env1].
  - unfold ret at 1. destruct (responder request _ (w_app w)) as [resp app].
    pose proof (process_response_keeps_absent self now request
                  (mkEnv (redis env1) (context env1) resp) k Hne Hreq) as Hresp.
    by destruct (SimpleIdempotencyMiddleware.process_response _ _ _ _) as [r2 env2].
  - pose proof (handle_exception_keeps_redis self request ex env1) as Hh.
    destruct (handle_exception _ _ _ _) as [r1 env2]. cbn [snd] in *.
    rewrite <- Hh in Hreq.
    destruct independent.
    + pose proof (process_response_keeps_absent self now request env2 k Hne Hreq)
        as Hresp.
      by destruct (SimpleIdempotencyMiddleware.process_response _ _ _ _) as [r2 env3].
    + done.
Qed.
End OtherKeys.

(** X6: requests with different keys never share a cached response.
    Under [SimpleIdempotencyMiddleware], when nothing is stored for a
    request's method and key, an earlier request with the same method and
    another key, whatever it did, does not change that: the later
    request runs the responder and gets its own response. *)
Theorem different_keys_never_share {bytes App : Type} `{!Pickle bytes}
    (responder : Request → Response → App → Response * App)
    (independent : bool) (self : Middleware) (now1 now2 : Z)
    (request1 request2 : Request) (resource1 resource2 : Resource)
    (resp1 resp2 : Response) (w0 : World bytes App) :
  truthy (get_header request1 idempotency_keyname) = true →
  truthy (get_header request2 idempotency_keyname) = true →
  get_header request2 idempotency_keyname ≠ get_header request1 idempotency_keyname →
  method request2 = method request1 →
  is_Some (redis_conn self) →
  data (w_redis w0)
    !! redis_key (method request2) (get_header request2 idempotency_keyname) = None →
  let w1 := (dispatch responder independent (simple_hooks self) now1 request1 resource1
               resp1 w0).2 in
  is_Some (dumps (responder request2 resp2 (w_app w1)).1) →
  let out := dispatch responder independent (simple_hooks self) now2 request2 resource2
               resp2 w1 in
  out.1 = Ok (responder request2 resp2 (w_app w1)).1
  ∧ w_invocations out.2 = S (w_invocations w1).
Proof.
  intros Hk1 Hk2 Hdiff Hm Hc Hnone w1 [value Hd] out. subst out.
  rewrite (dispatch_simple_miss responder independent self now2 request2 resource2
             resp2 w1 value); [done|done|done| |done].
  apply do_expire_lookup_None. subst w1.
  apply dispatch_simple_keeps_absent; [|done].
  destruct (truthy_Some _ Hk1) as [h1 Hh1]. destruct (truthy_Some _ Hk2) as [h2 Hh2].
  rewrite Hm, Hh1, Hh2. intros E. apply redis_key_same_method_inj in E.
  apply Hdiff. by rewrite Hh1, Hh2, E.
Qed.

Lemma different_keys_never_share_witness :
  let w1 := (dispatch vanilla_responder false (simple_hooks test_middleware) 100
               (request_with "POST" (Some "ABCD")) VanillaResource default_response
               fresh_world).2 in
  let out := dispatch vanilla_responder false (simple_hooks test_middleware) 200
               (request_with "POST" (Some "DEFG")) VanillaResource default_response w1 in
  out.1 = Ok (vanilla_responder (request_with "POST" (Some "DEFG")) default_response
                (w_app w1)).1
  ∧ w_invocations out.2 = S (w_invocations w1).
Proof.
  cbv zeta.
  apply (different_keys_never_share vanilla_responder false test_middleware 100 200
           (request_with "POST" (Some "ABCD")) (request_with "POST" (Some "DEFG"))
           VanillaResource VanillaResource default_response default_response
           fresh_world).
  - vm_compute. exact eq_refl.
  - vm_compute. exact eq_refl.
  - vm_compute. discriminate.
  - exact eq_refl.
  - by eexists.
  - vm_compute. exact eq_refl.
  - vm_compute. by eexists.
Defined.

(** ** The replay handler, once *)

(** X7: the replay handler consumes the stash.  After a call that
    returned normally the entry under the request's header value is gone,
    so that a second call for the same request fails with [KeyError] and
    changes nothing; the first call sent Redis nothing and left every
    other context entry in place. *)
Theorem handler_consumes_stash {bytes : Type} `{!Pickle bytes}
    (self : Middleware) (request : Request) (e : Env bytes) :
  let key := get_header request idempotency_keyname in
  let first := SimpleIdempotencyMiddleware.handler self request e in
  first.1 = Ok tt →
  SimpleIdempotencyMiddleware.handler self request first.2 = (Raise KeyError, first.2)
  ∧ context first.2 !! key = None
  ∧ (∀ k, k ≠ key → context first.2 !! k = context e !! k)
  ∧ redis first.2 = redis e.
Proof.
  cbn zeta. rewrite handler_eq.
  destruct (context e !! _) as [prev|] eqn:Hprev; [|done].
  intros _. cbn [fst snd context redis]. split; [|split; [|split]].
  - rewrite handler_eq. cbn [context]. by rewrite lookup_delete_eq.
  - by rewrite lookup_delete_eq.
  - intros k Hne. by rewrite lookup_delete_ne.
  - done.
Qed.

Lemma handler_consumes_stash_witness :
  let request := request_with "POST" (Some "ABCD") in
  let snap := set_header "trans_id" (transaction_id 0) default_response in
  let e : Env (list opcode) :=
    mkEnv empty_redis {[Some "ABCD" := snap; Some "other" := default_response]}
      default_response in
  let first := SimpleIdempotencyMiddleware.handler test_middleware request e in
  first.1 = Ok tt
  ∧ SimpleIdempotencyMiddleware.handler test_middleware request first.2
    = (Raise KeyError, first.2)
  ∧ context first.2 !! Some "ABCD" = None
  ∧ (∀ k, k ≠ Some "ABCD" → context first.2 !! k = context e !! k)
  ∧ redis first.2 = redis e.
Proof.
  cbv zeta.
  assert ((SimpleIdempotencyMiddleware.handler test_middleware
             (request_with "POST" (Some "ABCD"))
             (mkEnv empty_redis
                {[Some "ABCD" := set_header "trans_id" (transaction_id 0) default_response;
                  Some "other" := default_response]}
                default_response)).1 = Ok tt)
    as Hfirst by (vm_compute; exact eq_refl).
  split; [exact Hfirst|].
  exact (handler_consumes_stash test_middleware (request_with "POST" (Some "ABCD")) _
           Hfirst).
Defined.

(** X18: the stash holds one entry, and only while a replay is under
    way.  For a request whose context starts empty: when the pre-handler
    phase raises the sentinel the context holds exactly one entry, under
    the request's header value, and it is what [pickle.loads] made of the
    bytes the cache holds under the derived key; the replay handler then
    returns normally, sends Redis nothing and leaves the context empty
    again.  When the sentinel is not raised the context stays empty. *)
Theorem stash_is_single_and_consumed {bytes : Type} `{!Pickle bytes}
    (self : Middleware) (now : Z) (request : Request) (e : Env bytes) :
  context e = ∅ →
  let key := get_header request idempotency_keyname in
  let rk := redis_key (method request) key in
  let out := SimpleIdempotencyMiddleware.process_request self now request e in
  let replayed := SimpleIdempotencyMiddleware.handler self request out.2 in
  (out.1 = Raise SentinelException →
   truthy key = true
   ∧ (∃ value expiry snap,
        data (redis e) !! rk = Some (value, expiry)
        ∧ loads value = Some snap
        ∧ context out.2 = {[key := snap]})
   ∧ replayed.1 = Ok tt
   ∧ context replayed.2 = ∅
   ∧ redis replayed.2 = redis out.2)
  ∧ (out.1 ≠ Raise SentinelException → context out.2 = ∅).
Proof.
  intros Hctx. cbn zeta. split.
  - unfold SimpleIdempotencyMiddleware.process_request.
    destruct (truthy _) eqn:Hk; [|done].
    unfold bind, _BaseKlass.get_response_from_redis, conn_get, redis_get,
      context_setitem, ret, raise.
    destruct (redis_conn self) as [c|] eqn:Hc; [|done].
    cbn. destruct (do_expire _ _ !! _) as [[value expiry]|] eqn:Hd; cbn; [|done].
    destruct (loads value) as [snap|] eqn:Hl; cbn; [|done].
    intros _. split; [done|].
    unfold do_expire in Hd. apply map_lookup_filter_Some in Hd as [Hd _].
    rewrite Hctx, insert_empty. split; [by exists value, expiry, snap|].
    rewrite handler_eq. cbn [context].
    by rewrite lookup_singleton_eq, delete_singleton_eq.
  - intros Hne.
    pose proof (process_request_cases self now request e) as Hcases.
    cbn zeta in Hcases. rewrite Hctx in Hcases.
    destruct Hcases as [(_ & H & _)|[(_ & H & _)|[(_ & H)|(_ & H & _)]]];
      [done|done|by rewrite H|done].
Qed.

Lemma stash_is_single_and_consumed_witness :
  let request := request_with "POST" (Some "ABCD") in
  let stored :=
    (dispatch vanilla_responder false (simple_hooks test_middleware) 100 request
       VanillaResource default_response fresh_world).2.(w_redis) in
  let e := mkEnv stored ∅ default_response in
  let out := SimpleIdempotencyMiddleware.process_request test_middleware 200 request e in
  let replayed := SimpleIdempotencyMiddleware.handler test_middleware request out.2 in
  out.1 = Raise SentinelException
  ∧ (out.1 = Raise SentinelException →
     truthy (get_header request idempotency_keyname) = true
     ∧ (∃ value expiry snap,
          data (redis e)
            !! redis_key (method request) (get_header request idempotency_keyname)
          = Some (value, expiry)
          ∧ loads value = Some snap
          ∧ context out.2 = {[get_header request idempotency_keyname := snap]})
     ∧ replayed.1 = Ok tt
     ∧ context replayed.2 = ∅
     ∧ redis replayed.2 = redis out.2)
  ∧ (out.1 ≠ Raise SentinelException → context out.2 = ∅).
Proof.
  cbv zeta. split; [vm_compute; exact eq_refl|].
  apply (stash_is_single_and_consumed test_middleware 200
           (request_with "POST" (Some "ABCD"))
           (mkEnv
              (dispatch vanilla_responder false (simple_hooks test_middleware) 100
                 (request_with "POST" (Some "ABCD")) VanillaResource default_response
                 fresh_world).2.(w_redis)
              ∅ default_response)).
  reflexivity.
Defined.

(** ** The keys the middleware addresses *)

Lemma in_namespace_redis_key m k : in_namespace (redis_key m k) = true.
Proof. unfold in_namespace, redis_key. cbn. by destruct (m +:+ _). Qed.

(** X8: the middleware stays in its namespace.  Every command a phase
    sends to Redis addresses a key that starts with [FALCON_REQUEST_],
    and the post-handler phase, the only one that writes, leaves every
    entry under any other key as it was. *)
Theorem commands_stay_in_namespace {bytes : Type} `{!Pickle bytes}
    (self : Middleware) (now : Z) (request : Request) (resource : Resource)
    (e : Env bytes) :
  let sent (out : result unit * Env bytes) :=
    ∃ new, calls (redis out.2) = (calls (redis e) ++ new)%list
           ∧ Forall (λ c, in_namespace (call_key c) = true) new in
  sent (SimpleIdempotencyMiddleware.process_request self now request e)
  ∧ sent (IdempotencyMiddleware.process_resource self now request resource e)
  ∧ sent (SimpleIdempotencyMiddleware.process_response self now request e)
  ∧ sent (SimpleIdempotencyMiddleware.handler self request e)
  ∧ (∀ k, in_namespace k = false →
       data (redis (SimpleIdempotencyMiddleware.process_response self now request e).2)
         !! k = data (redis e) !! k).
Proof.
  cbn zeta.
  assert (∃ new, calls (redis (SimpleIdempotencyMiddleware.process_request
                                 self now request e).2)
                 = (calls (redis e) ++ new)%list
                 ∧ Forall (λ c : RedisCall bytes, in_namespace (call_key c) = true) new)
    as Hreq.
  { unfold SimpleIdempotencyMiddleware.process_request.
    destruct (truthy _); [|exists []; by rewrite app_nil_r].
    unfold bind, _BaseKlass.get_response_from_redis, conn_get, redis_get,
      context_setitem, ret, raise.
    destruct (redis_conn self) as [c|]; [|exists []; by rewrite app_nil_r].
    cbn.
    assert (Forall (λ c : RedisCall bytes, in_namespace (call_key c) = true)
              [GET (redis_key (method request)
                      (get_header request idempotency_keyname))]) as Hns.
    { constructor; [apply in_namespace_redis_key|constructor]. }
    destruct (do_expire _ _ !! _) as [[value expiry]|]; cbn;
      [destruct (loads value); cbn|]; by eexists. }
  split; [exact Hreq|]. split; [|split; [|split]].
  - rewrite process_resource_applies. destruct (applies _ _); [exact Hreq|].
    exists []. by rewrite app_nil_r.
  - unfold SimpleIdempotencyMiddleware.process_response, bind, get_response,
      _BaseKlass.store_response_in_redis, conn_setex, redis_setex, ret, raise.
    destruct (truthy _); [|exists []; by rewrite app_nil_r].
    destruct (redis_conn self); [|exists []; by rewrite app_nil_r].
    destruct (dumps (response e)) as [value|]; [|exists []; by rewrite app_nil_r].
    cbn. eexists. split; [done|].
    constructor; [apply in_namespace_redis_key|constructor].
  - rewrite handler_eq. destruct (context e !! _); exists []; by rewrite app_nil_r.
  - intros k Hk.
    unfold SimpleIdempotencyMiddleware.process_response, bind, get_response,
      _BaseKlass.store_response_in_redis, conn_setex, redis_setex, ret, raise.
    destruct (truthy _); [|done].
    destruct (redis_conn self); [|done].
    destruct (dumps (response e)) as [value|]; [|done].
    cbn. apply lookup_insert_ne. intros E. rewrite <- E in Hk.
    by rewrite in_namespace_redis_key in Hk.
Qed.

(** ** The connection *)

(** X9: a middleware that was constructed lacks a connection in one case
    only, an empty URL and no connection object; construction accepts
    that, and then every request that carries a key fails with
    [AttributeError], before the handler in the pre-handler phase and
    after it in the post-handler phase, with nothing read, written or
    changed. *)
Theorem constructed_without_connection {bytes : Type} `{!Pickle bytes}
    (redis_url : option string) (redis_connection : option Conn)
    (idempotency_ttl : option Z) (self : Middleware) :
  __init__ redis_url redis_connection idempotency_ttl = Ok self →
  (redis_conn self = None ↔ redis_connection = None ∧ redis_url = Some "")
  ∧ (redis_conn self = None →
     ∀ (now : Z) (request : Request) (e : Env bytes),
       truthy (get_header request idempotency_keyname) = true →
       SimpleIdempotencyMiddleware.process_request self now request e
       = (Raise AttributeError, e)
       ∧ SimpleIdempotencyMiddleware.process_response self now request e
         = (Raise AttributeError, e)).
Proof.
  intros Hinit. apply init_ok in Hinit as [-> Hsupplied]. split.
  - unfold redis_conn. cbn.
    destruct redis_connection as [c|]; [by split; [|intros [? _]]|].
    destruct redis_url as [[|a s]|]; cbn; split; try done.
    { by intros [_ ?]. }
    destruct Hsupplied; done.
  - intros Hnone now request e Hk. split.
    + unfold SimpleIdempotencyMiddleware.process_request. rewrite Hk.
      unfold bind, _BaseKlass.get_response_from_redis, conn_get. by rewrite Hnone.
    + unfold SimpleIdempotencyMiddleware.process_response. rewrite Hk.
      unfold bind, get_response, _BaseKlass.store_response_in_redis. by rewrite Hnone.
Qed.

Lemma constructed_without_connection_witness :
  let self := mkMiddleware (Some "") None 3600 in
  let e : Env (list opcode) := mkEnv empty_redis ∅ default_response in
  __init__ (Some "") None None = Ok self
  ∧ redis_conn self = None
  ∧ SimpleIdempotencyMiddleware.process_request self 100
      (request_with "POST" (Some "ABCD")) e = (Raise AttributeError, e)
  ∧ SimpleIdempotencyMiddleware.process_response self 100
      (request_with "POST" (Some "ABCD")) e = (Raise AttributeError, e).
Proof.
  cbv zeta.
  destruct (constructed_without_connection (bytes := list opcode) (Some "") None None
              (mkMiddleware (Some "") None 3600) eq_refl) as [Hiff Hfail].
  assert (redis_conn (mkMiddleware (Some "") None 3600) = None) as Hnone
    by (by apply Hiff).
  split; [exact eq_refl|]. split; [exact Hnone|].
  apply (Hfail Hnone 100 (request_with "POST" (Some "ABCD"))
           (mkEnv empty_redis ∅ default_response)).
  vm_compute. exact eq_refl.
Defined.

(** X10: the [redis_conn] property makes its connection once.  What it
    returns is the connection the middleware was given, else one made
    from a truthy URL, else nothing; a connection it made is kept on the
    middleware, so that reading the property again returns the same
    connection and changes nothing more; the URL and the TTL are never
    touched. *)
Theorem redis_conn_assigned_once (self : Middleware) :
  let out := redis_conn_assigning self in
  out.1 = redis_conn self
  ∧ redis_conn_assigning out.2 = out
  ∧ redis_conn out.2 = redis_conn self
  ∧ _redis_url out.2 = _redis_url self
  ∧ _ttl out.2 = _ttl self
  ∧ (is_Some (_redis_connection self) ∨ truthy (_redis_url self) = false
     ↔ out.2 = self).
Proof.
  destruct self as [url [c|] ttl]; cbn.
  - repeat split; auto.
  - unfold redis_conn_assigning, redis_conn. cbn.
    destruct url as [[|a s]|]; cbn; repeat split; auto.
    + intros [[? ?]|?]; done.
    + intros E. discriminate E.
Qed.

(** ** Stores and lookups *)

(** X11: the last store wins, and it sets the clock.  After two
    responses were stored under the same method and key, a lookup returns
    the second response up to and including the second store's time plus
    the TTL, and nothing after it, however the first store's time relates
    to either. *)
Theorem last_store_wins {bytes : Type} `{!Pickle bytes}
    (self : Middleware) (now1 now2 now3 : Z) (key : option string) (request : Request)
    (r1 r2 : Response) (e : Env bytes) :
  is_Some (redis_conn self) →
  0 < _ttl self →
  is_Some (dumps r1) → is_Some (dumps r2) →
  let e1 := (_BaseKlass.store_response_in_redis self now1 key request r1 e).2 in
  let e2 := (_BaseKlass.store_response_in_redis self now2 key request r2 e1).2 in
  (_BaseKlass.get_response_from_redis self now3 key request e2).1
  = if bool_decide (now3 ≤ now2 + _ttl self) then Ok (Some r2) else Ok None.
Proof.
  intros Hc Httl [v1 Hd1] [v2 Hd2]. cbn zeta. case_bool_decide as Hlt.
  - by apply (store_then_get self now2 now3 key request r2 v2).
  - rewrite (store_response_ok self now1 key request r1 v1 e) by done. cbn [snd].
    rewrite (store_response_ok self now2 key request r2 v2) by done. cbn [snd].
    rewrite get_response_miss; [done|done|]. cbn [redis redis_setex data].
    eapply do_expire_lookup_expired; [apply lookup_insert_eq|lia].
Qed.

Lemma last_store_wins_witness :
  let request := request_with "POST" (Some "ABCD") in
  let r1 := set_header "trans_id" (transaction_id 1) default_response in
  let r2 := set_header "trans_id" (transaction_id 2) default_response in
  let e : Env (list opcode) := mkEnv empty_redis ∅ default_response in
  let e1 := (_BaseKlass.store_response_in_redis test_middleware 100 (Some "ABCD")
               request r1 e).2 in
  let e2 := (_BaseKlass.store_response_in_redis test_middleware 200 (Some "ABCD")
               request r2 e1).2 in
  (_BaseKlass.get_response_from_redis test_middleware 3800 (Some "ABCD") request e2).1
  = Ok (Some r2)
  ∧ (_BaseKlass.get_response_from_redis test_middleware 3801 (Some "ABCD") request e2).1
    = Ok None.
Proof.
  cbv zeta.
  assert (is_Some (redis_conn test_middleware)) as Hc by (by eexists).
  assert (0 < _ttl test_middleware) as Httl by (vm_compute; exact eq_refl).
  assert (is_Some (dumps (set_header "trans_id" (transaction_id 1) default_response)))
    as Hd1 by (vm_compute; by eexists).
  assert (is_Some (dumps (set_header "trans_id" (transaction_id 2) default_response)))
    as Hd2 by (vm_compute; by eexists).
  split.
  - exact (last_store_wins test_middleware 100 200 3800 (Some "ABCD")
             (request_with "POST" (Some "ABCD")) _ _
             (mkEnv empty_redis ∅ default_response) Hc Httl Hd1 Hd2).
  - exact (last_store_wins test_middleware 100 200 3801 (Some "ABCD")
             (request_with "POST" (Some "ABCD")) _ _
             (mkEnv empty_redis ∅ default_response) Hc Httl Hd1 Hd2).
Defined.

Lemma get_response_corrupt {bytes : Type} `{!Pickle bytes}
    (self : Middleware) (now : Z) (key : option string) (request : Request)
    (value : bytes) (expiry : Z) (e : Env bytes) :
  is_Some (redis_conn self) →
  data (redis e) !! redis_key (method request) key = Some (value, expiry) →
  now < expiry → loads value = None →
  _BaseKlass.get_response_from_redis self now key request e
  = (Raise UnpicklingError,
     mkEnv (redis_get now (redis_key (method request) key) (redis e)).2
       (context e) (response e)).
Proof.
  intros [c Hc] Hd Hlt Hl. unfold _BaseKlass.get_response_from_redis.
  rewrite Hc. unfold bind, conn_get, redis_get. cbn.
  rewrite (do_expire_lookup_live _ _ _ _ _ Hd (Z.lt_le_incl _ _ Hlt)). cbn.
  by rewrite Hl.
Qed.

(** X12: an entry that cannot be decoded fails the request.  When the
    cache holds, live under a request's derived key, bytes that
    [pickle.loads] rejects, the pre-handler phase raises the decoding
    error with nothing stashed; under [SimpleIdempotencyMiddleware] the
    request ends in an error and the responder does not run. *)
Theorem corrupt_entry_fails_request {bytes App : Type} `{!Pickle bytes}
    (responder : Request → Response → App → Response * App)
    (independent : bool) (self : Middleware) (now : Z) (request : Request)
    (resource : Resource) (resp0 : Response) (w : World bytes App)
    (value : bytes) (expiry : Z) :
  let key := get_header request idempotency_keyname in
  let rk := redis_key (method request) key in
  truthy key = true →
  is_Some (redis_conn self) →
  data (w_redis w) !! rk = Some (value, expiry) →
  now < expiry →
  loads value = None →
  let e := mkEnv (w_redis w) (req_context request) resp0 in
  let out := dispatch responder independent (simple_hooks self) now request resource
               resp0 w in
  SimpleIdempotencyMiddleware.process_request self now request e
  = (Raise UnpicklingError,
     mkEnv (redis_get now rk (w_redis w)).2 (req_context request) resp0)
  ∧ (∃ ex, out.1 = Raise ex)
  ∧ w_invocations out.2 = w_invocations w
  ∧ w_app out.2 = w_app w.
Proof.
  intros key rk Hk Hc Hd Hlt Hl e out. subst key rk e out.
  assert (SimpleIdempotencyMiddleware.process_request self now request
            (mkEnv (w_redis w) (req_context request) resp0)
          = (Raise UnpicklingError,
             mkEnv
               (redis_get now
                  (redis_key (method request) (get_header request idempotency_keyname))
                  (w_redis w)).2
               (req_context request) resp0))
    as Hreq.
  { unfold SimpleIdempotencyMiddleware.process_request. rewrite Hk. unfold bind at 1.
    by rewrite (get_response_corrupt _ _ _ _ value expiry). }
  split; [exact Hreq|]. unfold dispatch.
  cbn [simple_hooks h_process_request h_process_resource h_process_response].
  rewrite Hreq. cbn [handle_exception]. unfold raise.
  destruct independent.
  - destruct (SimpleIdempotencyMiddleware.process_response _ _ _ _) as [[[]|ex] env2];
      cbn; (split; [by eexists|done]).
  - cbn. split; [by eexists|done].
Qed.

Lemma corrupt_entry_fails_request_witness :
  let w : World (list opcode) nat :=
    mkWorld (mkRedis {["FALCON_REQUEST_POST_ABCD" := ([SETITEM], 1000)]} []) 0%nat 0%nat in
  let request := request_with "POST" (Some "ABCD") in
  let out := dispatch vanilla_responder false (simple_hooks test_middleware) 100 request
               VanillaResource default_response w in
  SimpleIdempotencyMiddleware.process_request test_middleware 100 request
    (mkEnv (w_redis w) (req_context request) default_response)
  = (Raise UnpicklingError,
     mkEnv
       (redis_get 100
          (redis_key (method request) (get_header request idempotency_keyname))
          (w_redis w)).2
       (req_context request) default_response)
  ∧ (∃ ex, out.1 = Raise ex)
  ∧ w_invocations out.2 = w_invocations w
  ∧ w_app out.2 = w_app w.
Proof.
  cbv zeta.
  apply (corrupt_entry_fails_request vanilla_responder false test_middleware 100
           (request_with "POST" (Some "ABCD")) VanillaResource default_response
           (mkWorld (mkRedis {["FALCON_REQUEST_POST_ABCD" := ([SETITEM], 1000)]} [])
              0%nat 0%nat)
           [SETITEM] 1000).
  - vm_compute. exact eq_refl.
  - by eexists.
  - vm_compute. exact eq_refl.
  - vm_compute. exact eq_refl.
  - vm_compute. exact eq_refl.
Defined.

(** ** The mixins *)

(** X13: a mixin enables its own method and no other.  For a resource
    class that does not define the flag itself, inheriting
    [IdempotentPostMixin] makes [process_resource] run the lookup phase
    for POST and leaves what it does for every other method as it was;
    [IdempotentDeleteMixin] does the same for DELETE; and the two can be
    combined in either order. *)
Theorem mixins_enable_their_method {bytes : Type} `{!Pickle bytes}
    (self : Middleware) (now : Z) (request : Request) (resource : Resource) :
  (method request = "POST" → resource !! "idempotent_post" = None →
   IdempotencyMiddleware.process_resource self now request (IdempotentPostMixin resource)
   = SimpleIdempotencyMiddleware.process_request self now request)
  ∧ (method request ≠ "POST" →
     IdempotencyMiddleware.process_resource self now request (IdempotentPostMixin resource)
     = IdempotencyMiddleware.process_resource self now request resource)
  ∧ (method request = "DELETE" → resource !! "idempotent_delete" = None →
     IdempotencyMiddleware.process_resource self now request
       (IdempotentDeleteMixin resource)
     = SimpleIdempotencyMiddleware.process_request self now request)
  ∧ (method request ≠ "DELETE" →
     IdempotencyMiddleware.process_resource self now request
       (IdempotentDeleteMixin resource)
     = IdempotencyMiddleware.process_resource self now request resource)
  ∧ IdempotentPostMixin (IdempotentDeleteMixin resource)
    = IdempotentDeleteMixin (IdempotentPostMixin resource).
Proof.
  rewrite !process_resource_applies. unfold applies.
  split; [|split; [|split; [|split]]].
  - intros Hm _. rewrite Hm. unfold IdempotentPostMixin.
    rewrite lookup_insert_eq. rewrite bool_decide_eq_true_2 by done. reflexivity.
  - intros Hm. apply String.eqb_neq in Hm. rewrite Hm. cbn [andb orb].
    unfold IdempotentPostMixin. by rewrite lookup_insert_ne.
  - intros Hm _. rewrite Hm. unfold IdempotentDeleteMixin.
    rewrite lookup_insert_eq. rewrite (bool_decide_eq_true_2 (Some _ = Some _)) by done.
    reflexivity.
  - intros Hm. apply String.eqb_neq in Hm. rewrite Hm. cbn [andb].
    rewrite !orb_false_r.
    unfold IdempotentDeleteMixin. by rewrite lookup_insert_ne.
  - unfold IdempotentPostMixin, IdempotentDeleteMixin. by apply insert_insert_ne.
Qed.

(** ** The TTL under [IdempotencyMiddleware] *)

(** X14: under [IdempotencyMiddleware] a replay renews the entry.  After
    a first request ran the responder and a second one, within the TTL
    of the first, took the replay path, the entry under the derived key
    expires a TTL after the second request, and a third request within
    that time takes the replay path as well, also when the TTL of the
    first has elapsed by then: the responder still ran only once. *)
Theorem optin_replay_renews_ttl {bytes App : Type} `{!Pickle bytes}
    (responder : Request → Response → App → Response * App)
    (independent : bool) (self : Middleware) (now1 now2 now3 : Z)
    (request : Request) (resource : Resource) (resp0 r1 : Response)
    (w0 w1 : World bytes App) :
  truthy (get_header request idempotency_keyname) = true →
  is_Some (redis_conn self) →
  0 < _ttl self →
  applies (method request) resource = true →
  dispatch responder independent (optin_hooks self) now1 request resource resp0 w0
  = (Ok r1, w1) →
  w_invocations w1 = S (w_invocations w0) →
  now2 < now1 + _ttl self →
  now3 < now2 + _ttl self →
  dom resp0 ⊆ dom r1 →
  let rk := redis_key (method request) (get_header request idempotency_keyname) in
  let w2 := (dispatch responder independent (optin_hooks self) now2 request resource
               resp0 w1).2 in
  let out := dispatch responder independent (optin_hooks self) now3 request resource
               resp0 w2 in
  snd <$> data (w_redis w2) !! rk = Some (now2 + _ttl self)
  ∧ w_invocations out.2 = w_invocations w1
  ∧ w_app out.2 = w_app w1.
Proof.
  intros Hk Hc Httl Happ Hfirst Hran Hlt2 Hlt3 Hdom. cbn zeta.
  destruct (dispatch_optin_stored responder independent self now1 request resource
              resp0 w0 r1 w1 Hk Hc Hfirst Hran) as (_ & value & Hd & Hstored).
  pose proof (union_absorbs_dom r1 resp0 Hdom) as Hunion.
  pose proof (loads_dumps _ _ Hd) as Hl.
  rewrite (dispatch_optin_replay responder independent self now2 request resource
             resp0 w1 value (now1 + _ttl self) r1 value);
    [|done|done|done|done|lia|done|by rewrite Hunion].
  cbn [snd w_redis redis_setex data]. rewrite lookup_insert_eq.
  split; [done|].
  set (w2 := mkWorld _ _ _).
  apply (dispatch_raised_in_resource responder independent (optin_hooks self) now3
           request resource resp0 w2 _ SentinelException
           (mkEnv
              (redis_get now3
                 (redis_key (method request) (get_header request idempotency_keyname))
                 (w_redis w2)).2
              (<[get_header request idempotency_keyname := r1]> (req_context request))
              resp0) eq_refl).
  cbn [optin_hooks h_process_resource].
  rewrite process_resource_applies, Happ.
  rewrite (process_request_hit self now3 request value (now2 + _ttl self) r1).
  - done.
  - done.
  - done.
  - subst w2. cbn [redis w_redis redis_setex data]. apply lookup_insert_eq.
  - lia.
  - done.
Qed.

Lemma optin_replay_renews_ttl_witness :
  let request := request_with "POST" (Some "ABCD") in
  let w1 := (dispatch vanilla_responder false (optin_hooks test_middleware) 100 request
               POSTOnly default_response fresh_world).2 in
  let w2 := (dispatch vanilla_responder false (optin_hooks test_middleware) 3000 request
               POSTOnly default_response w1).2 in
  let out := dispatch vanilla_responder false (optin_hooks test_middleware) 5000 request
               POSTOnly default_response w2 in
  100 + _ttl test_middleware < 5000
  ∧ snd <$> data (w_redis w2) !! "FALCON_REQUEST_POST_ABCD" = Some 6600
  ∧ w_invocations out.2 = 1%nat
  ∧ w_app out.2 = 1%nat.
Proof.
  cbv zeta. split; [vm_compute; exact eq_refl|].
  destruct (optin_replay_renews_ttl vanilla_responder false test_middleware 100 3000
              5000 (request_with "POST" (Some "ABCD")) POSTOnly default_response
              (set_header "trans_id" (transaction_id 0) default_response) fresh_world
              (dispatch vanilla_responder false (optin_hooks test_middleware) 100
                 (request_with "POST" (Some "ABCD")) POSTOnly default_response
                 fresh_world).2) as (Hexp & Hcount & Happ).
  - vm_compute. exact eq_refl.
  - by eexists.
  - vm_compute. exact eq_refl.
  - vm_compute. exact eq_refl.
  - vm_compute. exact eq_refl.
  - vm_compute. exact eq_refl.
  - vm_compute. exact eq_refl.
  - vm_compute. exact eq_refl.
  - apply (bool_decide_unpack _). vm_compute. exact I.
  - split; [|split].
    + exact Hexp.
    + rewrite Hcount. vm_compute. exact eq_refl.
    + rewrite Happ. vm_compute. exact eq_refl.
Defined.

(** ** When the short-circuit is taken *)

